(** * ko_tts: engine registry and synthesis cache

    A shallow embedding of [ko_tts/engines/registry.py],
    [ko_tts/engines/base.py], [ko_tts/engines/melo.py],
    [ko_tts/engines/edge.py] and of the cache of
    [ko_tts/server/tts_engine.py], followed by the properties of the
    registry (engine selection, error behaviour) and of the cache
    (fingerprint, two storage tiers).

    Conventions of the embedding:
    - a Python [str] is the [string] of its UTF-8 bytes, so [str.encode()]
      is the identity on the representation;
    - a Python [int] is a [Z]; [bytes] is a [list byte];
    - a Python [float] is an abstract type: the code only passes floats
      on, formats them and tests them for truth;
    - a method that mutates objects is a function on an explicit state;
      a method that can raise returns an [Outcome];
    - [async def] bodies are run to completion, one request at a time. *)

From Stdlib Require Import ZArith String Ascii Strings.Byte.
From stdpp Require Import gmap strings list fin_maps sorting pretty.

Open Scope string_scope.
Open Scope list_scope.

(** ** Python prelude *)

Module Py.

(** The exceptions the modelled code raises. *)
Inductive PyExc : Type :=
| RuntimeError (msg : string)
| ValueError (msg : string)
| OtherError (cls msg : string).

(** [str(e)] *)
Definition exc_message (e : PyExc) : string :=
  match e with
  | RuntimeError m | ValueError m | OtherError _ m => m
  end.

Inductive Outcome (A : Type) : Type :=
| Return (a : A)
| Raise (e : PyExc).
Arguments Return {A} a.
Arguments Raise {A} e.

(** State and exceptions: a raise keeps the state reached so far. *)
Definition M (S A : Type) : Type := S → Outcome A * S.

Definition ret {S A} (a : A) : M S A := λ s, (Return a, s).

Definition bind {S A B} (m : M S A) (k : A → M S B) : M S B :=
  λ s, match m s with
       | (Return a, s') => k a s'
       | (Raise e, s') => (Raise e, s')
       end.

Definition raise {S A} (e : PyExc) : M S A := λ s, (Raise e, s).

#[global] Instance M_ret {S} : MRet (M S) := λ A, ret.
#[global] Instance M_bind {S} : MBind (M S) := λ A B k m, bind m k.

Definition get {S} : M S S := λ s, (Return s, s).

Definition modify {S} (f : S → S) : M S unit := λ s, (Return tt, f s).

(** ** [dict] with [str] keys: insertion ordered, one entry per key *)

Definition dict (V : Type) : Type := list (string * V).

Fixpoint dict_get {V} (d : dict V) (k : string) : option V :=
  match d with
  | [] => None
  | (k', v) :: d' => if String.eqb k' k then Some v else dict_get d' k
  end.

(** [d[k] = v]: an existing key keeps its position, a new key goes last. *)
Fixpoint dict_set {V} (d : dict V) (k : string) (v : V) : dict V :=
  match d with
  | [] => [(k, v)]
  | (k', v') :: d' =>
      if String.eqb k' k then (k', v) :: d' else (k', v') :: dict_set d' k v
  end.

Definition dict_keys {V} (d : dict V) : list string := map fst d.
Definition dict_values {V} (d : dict V) : list V := map snd d.

(** ** [sorted(l, key=...)] with integer keys

    Python's [sorted] is stable.  A stable sort is determined by its
    input, so it is modelled by stable insertion: each element, taken from
    the right, goes before the first element whose key is not smaller. *)

Fixpoint insert_by {A} (key : A → Z) (x : A) (l : list A) : list A :=
  match l with
  | [] => [x]
  | y :: l' =>
      if (key x <=? key y)%Z then x :: y :: l' else y :: insert_by key x l'
  end.

Definition sorted {A} (key : A → Z) (l : list A) : list A :=
  foldr (insert_by key) [] l.

(** The order [sorted] puts a list in. *)
Definition key_le {A} (key : A → Z) (a b : A) : Prop := (key a ≤ key b)%Z.

(** Truth value of an [Optional[str]]: [None] and [""] are false. *)
Definition truthy_opt_str (o : option string) : bool :=
  match o with
  | None | Some "" => false
  | Some _ => true
  end.

(** Truth value of an [Optional[bytes]]: [None] and [b""] are false. *)
Definition truthy_opt_bytes (o : option (list byte)) : bool :=
  match o with
  | None | Some [] => false
  | Some _ => true
  end.

End Py.

Export Py.

(** ** engines/base.py *)

Module Base.

Inductive EngineStatus : Type := AVAILABLE | NOT_INSTALLED | ERROR.

Section Contract.
Context {float : Type}.

Record SynthesisResult : Type := mkSynthesisResult {
  audio_bytes : list byte;
  sample_rate : Z;
  duration : float;
  voice : string;
  cached : bool
}.

(** [TTSEngineBase]: the abstract methods of an engine.  [Engine] is the
    type of engine objects, [World] holds what their methods read and
    write: the objects' own fields, module flags such as
    [MELO_AVAILABLE], the vendor backend.

    [check_available] is declared to return a pair and the engines of
    this repository only read a flag and set [_status] in it, so it has
    no exceptional outcome here; [initialize], [synthesize] and [cleanup]
    may raise. *)
Class TTSEngineBase (Engine World : Type) : Type := {
  name : Engine → string;
  priority : Engine → Z;
  _initialized : Engine → World → bool;
  check_available : Engine → World → (bool * string) * World;
  initialize : Engine → M World bool;
  synthesize : Engine → string → string → float → M World SynthesisResult;
  cleanup : Engine → M World unit
}.
End Contract.
Arguments SynthesisResult : clear implicits.
Arguments TTSEngineBase : clear implicits.

End Base.

(** ** engines/registry.py *)

Module EngineRegistry.
Import Base.

(** The engine methods the registry can call, for the call log. *)
Inductive Method : Type :=
| CheckAvailable | Initialize | Synthesize | Cleanup.

Section Registry.
Context {float Engine World : Type} `{!TTSEngineBase float Engine World}.

(** The registry object ([_engines], [_active_engine]) together with the
    world of the engines it refers to.  [calls] is the log of the engine
    methods the registry has called, oldest first, and [stdout] what it
    has printed; neither is read by the code. *)
Record State : Type := mkState {
  _engines : dict Engine;
  _active_engine : option Engine;
  world : World;
  calls : list (Engine * Method);
  stdout : list string
}.

Definition set_active (a : option Engine) (st : State) : State :=
  mkState (_engines st) a (world st) (calls st) (stdout st).

Definition set_engines (d : dict Engine) (st : State) : State :=
  mkState d (_active_engine st) (world st) (calls st) (stdout st).

(** The world moving on between two calls of the registry. *)
Definition set_world (w : World) (st : State) : State :=
  mkState (_engines st) (_active_engine st) w (calls st) (stdout st).

Definition print (line : string) : M State unit :=
  modify (λ st, mkState (_engines st) (_active_engine st) (world st)
                        (calls st) (stdout st ++ [line])).

(** Run an engine method on the world and log the call. *)
Definition call {A} (e : Engine) (m : Method) (body : M World A) : M State A :=
  λ st, let '(r, w) := body (world st) in
        (r, mkState (_engines st) (_active_engine st) w
                    (calls st ++ [(e, m)]) (stdout st)).

Definition call_check_available (e : Engine) : M State (bool * string) :=
  call e CheckAvailable (λ w, let '(r, w') := check_available e w in (Return r, w')).

Definition call_initialize (e : Engine) : M State bool :=
  call e Initialize (initialize e).

Definition call_synthesize (e : Engine) (text voice : string) (speed : float)
  : M State (SynthesisResult float) :=
  call e Synthesize (synthesize e text voice speed).

Definition call_cleanup (e : Engine) : M State unit :=
  call e Cleanup (cleanup e).

(** [__init__] *)
Definition init (w : World) : State := mkState [] None w [] [].

(** [register_engine], given the instance [engine_class()] built. *)
Definition register_engine (engine : Engine) : M State unit :=
  modify (λ st, set_engines (dict_set (_engines st) (name engine) engine) st) ;;
  print ("[Registry] Registered / 등록됨: " +:+ name engine).

Definition get_engine (nm : string) : M State (option Engine) :=
  st ← get; ret (dict_get (_engines st) nm).

(** The loop of [get_available_engines] over [self._engines.values()]. *)
Fixpoint collect_available (es : list Engine) : M State (list Engine) :=
  match es with
  | [] => ret []
  | engine :: es' =>
      '(is_available, _) ← call_check_available engine;
      available ← collect_available es';
      ret (if is_available : bool then engine :: available else available)
  end.

(** What the engines [es] answer when [check_available] is called on each
    in turn from the world [w], and the world these calls leave. *)
Fixpoint answers (es : list Engine) (w : World) : list bool :=
  match es with
  | [] => []
  | e :: es' => (check_available e w).1.1 :: answers es' (check_available e w).2
  end.

Fixpoint after_checks (es : list Engine) (w : World) : World :=
  match es with
  | [] => w
  | e :: es' => after_checks es' (check_available e w).2
  end.

(** The log entries of these calls. *)
Definition checked (es : list Engine) : list (Engine * Method) :=
  map (λ e, (e, CheckAvailable)) es.

(** The state a round of availability checks over all engines leaves. *)
Definition polled (st : State) : State :=
  let es := dict_values (_engines st) in
  mkState (_engines st) (_active_engine st) (after_checks es (world st))
          (calls st ++ checked es) (stdout st).

(** The registered engines that answer true, in the order of the dict. *)
Definition available_now (st : State) : list Engine :=
  let es := dict_values (_engines st) in
  (filter (λ p, p.2 = true) (zip es (answers es (world st)))).*1.

Definition get_available_engines : M State (list Engine) :=
  st ← get;
  available ← collect_available (dict_values (_engines st));
  ret (sorted (λ e, - priority e)%Z available).

Definition get_best_engine : M State (option Engine) :=
  available ← get_available_engines;
  ret (head available).

Definition set_active_engine (nm : string) : M State bool :=
  st ← get;
  match dict_get (_engines st) nm with
  | None => ret false
  | Some engine =>
      '(is_available, msg) ← call_check_available engine;
      if negb is_available then
        print ("[Registry] Engine " +:+ nm +:+ " not available / 사용 불가: " +:+ msg) ;;
        ret false
      else
        modify (set_active (Some engine)) ;;
        ret true
  end.

Definition no_engine_message : string :=
  "No TTS engine available. Install one: pip install melotts / 엔진 없음".

Definition get_active_engine : M State Engine :=
  st ← get;
  match _active_engine st with
  | Some active => ret active
  | None =>
      best ← get_best_engine;
      match best with
      | None => raise (RuntimeError no_engine_message)
      | Some b => modify (set_active (Some b)) ;; ret b
      end
  end.

(** Lines 141-146 of [synthesize]: the engine named by the override, or
    the active one. *)
Definition resolve (engine : option string) : M State Engine :=
  if truthy_opt_str engine then
    found ← get_engine (default "" engine);
    match found with
    | None => raise (ValueError ("Unknown engine / 알 수 없는 엔진: " +:+ default "" engine))
    | Some eng => ret eng
    end
  else get_active_engine.

(** Lines 148-150: [initialize] is called when [_initialized] is false and
    what it returns is dropped. *)
Definition ensure_initialized (eng : Engine) : M State unit :=
  st ← get;
  if negb (_initialized eng (world st)) then call_initialize eng;; ret tt
  else ret tt.

Definition synthesize (text voice : string) (speed : float)
    (engine : option string) : M State (SynthesisResult float) :=
  eng ← resolve engine;
  ensure_initialized eng;;
  call_synthesize eng text voice speed.

(** The loop of [cleanup]. *)
Fixpoint cleanup_each (es : list Engine) : M State unit :=
  match es with
  | [] => ret tt
  | engine :: es' => call_cleanup engine ;; cleanup_each es'
  end.

Definition cleanup : M State unit :=
  st ← get;
  cleanup_each (dict_values (_engines st)) ;;
  modify (set_active None).

End Registry.
Arguments State : clear implicits.

End EngineRegistry.
(** ** hashlib.md5

    [hashlib] is not part of the repository; MD5 (RFC 1321) is written out
    so that cache keys can be computed.  Words are 32-bit integers held in
    [Z], reduced after each addition and rotation. *)

Module MD5.
#[local] Open Scope Z_scope.

Definition mask32 : Z := 0xFFFFFFFF.
Definition add32 (a b : Z) : Z := (a + b) mod 2 ^ 32.
Definition not32 (a : Z) : Z := Z.lxor a mask32.
Definition rotl32 (x c : Z) : Z :=
  Z.lor (Z.land (Z.shiftl x c) mask32) (Z.shiftr x (32 - c)).

Definition shifts : list Z :=
  [ 7; 12; 17; 22; 7; 12; 17; 22; 7; 12; 17; 22; 7; 12; 17; 22;
    5; 9; 14; 20; 5; 9; 14; 20; 5; 9; 14; 20; 5; 9; 14; 20;
    4; 11; 16; 23; 4; 11; 16; 23; 4; 11; 16; 23; 4; 11; 16; 23;
    6; 10; 15; 21; 6; 10; 15; 21; 6; 10; 15; 21; 6; 10; 15; 21 ].

Definition sines : list Z :=
  [ 0xd76aa478; 0xe8c7b756; 0x242070db; 0xc1bdceee;
    0xf57c0faf; 0x4787c62a; 0xa8304613; 0xfd469501;
    0x698098d8; 0x8b44f7af; 0xffff5bb1; 0x895cd7be;
    0x6b901122; 0xfd987193; 0xa679438e; 0x49b40821;
    0xf61e2562; 0xc040b340; 0x265e5a51; 0xe9b6c7aa;
    0xd62f105d; 0x02441453; 0xd8a1e681; 0xe7d3fbc8;
    0x21e1cde6; 0xc33707d6; 0xf4d50d87; 0x455a14ed;
    0xa9e3e905; 0xfcefa3f8; 0x676f02d9; 0x8d2a4c8a;
    0xfffa3942; 0x8771f681; 0x6d9d6122; 0xfde5380c;
    0xa4beea44; 0x4bdecfa9; 0xf6bb4b60; 0xbebfbc70;
    0x289b7ec6; 0xeaa127fa; 0xd4ef3085; 0x04881d05;
    0xd9d4d039; 0xe6db99e5; 0x1fa27cf8; 0xc4ac5665;
    0xf4292244; 0x432aff97; 0xab9423a7; 0xfc93a039;
    0x655b59c3; 0x8f0ccc92; 0xffeff47d; 0x85845dd1;
    0x6fa87e4f; 0xfe2ce6e0; 0xa3014314; 0x4e0811a1;
    0xf7537e82; 0xbd3af235; 0x2ad7d2bb; 0xeb86d391 ].

(** [n] bytes of [x], least significant first. *)
Fixpoint le_bytes (n : nat) (x : Z) : list Z :=
  match n with
  | O => []
  | S n' => x mod 256 :: le_bytes n' (x / 256)
  end.

Fixpoint le_word (bs : list Z) : Z :=
  match bs with
  | [] => 0
  | b :: bs' => b + 256 * le_word bs'
  end.

Definition pad (msg : list Z) : list Z :=
  let len := Z.of_nat (length msg) in
  msg ++ [0x80] ++ replicate (Z.to_nat ((55 - len) mod 64)) 0
      ++ le_bytes 8 ((8 * len) mod 2 ^ 64).

(** The sixteen words of the block that starts at byte [off]. *)
Definition block_words (bs : list Z) (blk : nat) : list Z :=
  map (λ j, le_word (take 4 (drop (64 * blk + 4 * j) bs))) (seq 0 16).

Record Digest : Type := mkDigest { dA : Z; dB : Z; dC : Z; dD : Z }.

Definition round (m : list Z) (s : Digest) (i : nat) : Digest :=
  let '(mkDigest a b c d) := s in
  let iz := Z.of_nat i in
  let '(f, g) :=
    if iz <? 16 then (Z.lor (Z.land b c) (Z.land (not32 b) d), iz)
    else if iz <? 32 then (Z.lor (Z.land d b) (Z.land (not32 d) c), (5 * iz + 1) mod 16)
    else if iz <? 48 then (Z.lxor (Z.lxor b c) d, (3 * iz + 5) mod 16)
    else (Z.lxor c (Z.lor b (not32 d)), (7 * iz) mod 16) in
  let f' := add32 (add32 (add32 f a) (nth i sines 0)) (nth (Z.to_nat g) m 0) in
  mkDigest d (add32 b (rotl32 f' (nth i shifts 0))) b c.

Definition compress (bs : list Z) (s : Digest) (blk : nat) : Digest :=
  let r := foldl (round (block_words bs blk)) s (seq 0 64) in
  mkDigest (add32 (dA s) (dA r)) (add32 (dB s) (dB r))
           (add32 (dC s) (dC r)) (add32 (dD s) (dD r)).

Definition initial : Digest :=
  mkDigest 0x67452301 0xefcdab89 0x98badcfe 0x10325476.

Definition digest (msg : list Z) : list Z :=
  let bs := pad msg in
  let r := foldl (compress bs) initial (seq 0 (length bs / 64)) in
  le_bytes 4 (dA r) ++ le_bytes 4 (dB r) ++ le_bytes 4 (dC r) ++ le_bytes 4 (dD r).

Definition hex_digit (n : Z) : ascii :=
  nth (Z.to_nat n) (list_ascii_of_string "0123456789abcdef") "0"%char.

Definition hex (bs : list Z) : string :=
  string_of_list_ascii
    (flat_map (λ b, [hex_digit (b / 16); hex_digit (b mod 16)]) bs).

Definition bytes_of_string (s : string) : list Z :=
  map (λ c, Z.of_N (N_of_ascii c)) (list_ascii_of_string s).

(** [hashlib.md5(data).hexdigest()] *)
Definition hexdigest (data : string) : string := hex (digest (bytes_of_string data)).

End MD5.

(** ** engines/melo.py and engines/edge.py *)

Module Engines.
Import Base.

(** The two engine objects that discovery creates. *)
Inductive Engine : Type := MeloEngine | EdgeEngine.

(** Module flags and the fields of the two objects. *)
Record World : Type := mkWorld {
  MELO_AVAILABLE : bool;
  EDGE_AVAILABLE : bool;
  melo_initialized : bool;
  melo_status : EngineStatus;
  melo_model : bool;
  melo_sample_rate : Z;
  edge_initialized : bool;
  edge_status : EngineStatus
}.

Section Vendor.
Context {float : Type}.

(** The vendor packages: [MeloTTS(language='KR', device='auto')]
    followed by the read of its sampling rate, and the synthesis proper
    of each engine (audio bytes, sample rate and duration for Melo;
    audio bytes and duration for Edge, whose rate is fixed).  The
    progress lines the engines print are left out. *)
Context (MeloTTS : Outcome Z)
        (melo_tts : string → string → float → Outcome (list byte * Z * float))
        (edge_tts : string → string → float → Outcome (list byte * float)).

Definition engine_name (e : Engine) : string :=
  match e with MeloEngine => "melo" | EdgeEngine => "edge" end.

Definition engine_priority (e : Engine) : Z :=
  match e with MeloEngine => 80 | EdgeEngine => 20 end.

Definition engine_initialized (e : Engine) (w : World) : bool :=
  match e with
  | MeloEngine => melo_initialized w
  | EdgeEngine => edge_initialized w
  end.

Definition set_melo (i : bool) (s : EngineStatus) (m : bool) (r : Z) (w : World) : World :=
  mkWorld (MELO_AVAILABLE w) (EDGE_AVAILABLE w) i s m r
          (edge_initialized w) (edge_status w).

Definition set_edge (i : bool) (s : EngineStatus) (w : World) : World :=
  mkWorld (MELO_AVAILABLE w) (EDGE_AVAILABLE w) (melo_initialized w)
          (melo_status w) (melo_model w) (melo_sample_rate w) i s.

Definition melo_check_available (w : World) : (bool * string) * World :=
  if MELO_AVAILABLE w then
    ((true, "MeloTTS is installed / MeloTTS 설치됨"),
     set_melo (melo_initialized w) AVAILABLE (melo_model w) (melo_sample_rate w) w)
  else
    ((false, "MeloTTS not installed. Run: pip install melotts / 설치 필요"),
     set_melo (melo_initialized w) NOT_INSTALLED (melo_model w) (melo_sample_rate w) w).

Definition melo_initialize : M World bool :=
  w ← get;
  if negb (MELO_AVAILABLE w) then ret false
  else match MeloTTS with
       | Return rate =>
           modify (set_melo true (melo_status w) true rate);; ret true
       | Raise _ =>
           modify (set_melo (melo_initialized w) ERROR (melo_model w) (melo_sample_rate w));;
           ret false
       end.

Definition melo_synthesize (text voice : string) (speed : float)
  : M World (SynthesisResult float) :=
  w ← get;
  (if negb (melo_initialized w) then
     ok ← melo_initialize;
     if negb ok then raise (RuntimeError "MeloTTS initialization failed / 초기화 실패")
     else ret tt
   else ret tt);;
  match melo_tts text voice speed with
  | Return (audio, sr, dur) => ret (mkSynthesisResult audio sr dur voice false)
  | Raise e => raise e
  end.

Definition melo_cleanup : M World unit :=
  modify (λ w, set_melo false (melo_status w) false (melo_sample_rate w) w).

Definition edge_check_available (w : World) : (bool * string) * World :=
  if EDGE_AVAILABLE w then
    ((true, "Edge TTS is installed (requires internet) / 설치됨 (인터넷 필요)"),
     set_edge (edge_initialized w) AVAILABLE w)
  else
    ((false, "edge-tts not installed. Run: pip install edge-tts / 설치 필요"),
     set_edge (edge_initialized w) NOT_INSTALLED w).

Definition edge_initialize : M World bool :=
  w ← get;
  if negb (EDGE_AVAILABLE w) then ret false
  else modify (set_edge true (edge_status w));; ret true.

Definition VOICE_ALIASES : dict string :=
  [ ("KR", "ko-KR-SunHiNeural"); ("KR-1", "ko-KR-SunHiNeural");
    ("KR-2", "ko-KR-InJoonNeural"); ("default", "ko-KR-SunHiNeural") ].

Definition edge_synthesize (text voice : string) (speed : float)
  : M World (SynthesisResult float) :=
  w ← get;
  (if negb (edge_initialized w) then
     ok ← edge_initialize;
     if negb ok then raise (RuntimeError "Edge TTS initialization failed / 초기화 실패")
     else ret tt
   else ret tt);;
  let edge_voice := default voice (dict_get VOICE_ALIASES voice) in
  match edge_tts text edge_voice speed with
  | Return (wav, dur) => ret (mkSynthesisResult wav 24000 dur edge_voice false)
  | Raise e => raise e
  end.

Definition edge_cleanup : M World unit := ret tt.

Definition builtin : TTSEngineBase float Engine World := {|
  name := engine_name;
  priority := engine_priority;
  _initialized := engine_initialized;
  check_available e :=
    match e with
    | MeloEngine => melo_check_available
    | EdgeEngine => edge_check_available
    end;
  initialize e :=
    match e with MeloEngine => melo_initialize | EdgeEngine => edge_initialize end;
  synthesize e :=
    match e with MeloEngine => melo_synthesize | EdgeEngine => edge_synthesize end;
  cleanup e :=
    match e with MeloEngine => melo_cleanup | EdgeEngine => edge_cleanup end
|}.
End Vendor.

End Engines.

(** ** A scripted engine class

    Engines whose answers are read from the world, standing for the
    third-party plugins the registry accepts: each object has its own
    record, found by the object's number. *)

Module Scripted.
Import Base.

Record Engine : Type := mkEngine {
  obj : nat;
  engine_name : string;
  engine_priority : Z
}.

Section Script.
Context {float : Type}.

Record Fields : Type := mkFields {
  installed : bool;
  initialized : bool;
  loads : Outcome bool;
  speaks : Outcome (SynthesisResult float)
}.

Definition World : Type := list Fields.

Definition absent : Fields :=
  mkFields false false (Return false) (Raise (RuntimeError "no such object")).

Definition fields (e : Engine) (w : World) : Fields := nth (obj e) w absent.

Definition set_initialized (e : Engine) (b : bool) (w : World) : World :=
  let f := fields e w in
  <[obj e := mkFields (installed f) b (loads f) (speaks f)]> w.

Definition scripted_check_available (e : Engine) (w : World) : (bool * string) * World :=
  ((installed (fields e w),
    if installed (fields e w) then "installed" else "not installed"), w).

Definition scripted_initialize (e : Engine) : M World bool :=
  w ← get;
  match loads (fields e w) with
  | Return true => modify (set_initialized e true);; ret true
  | Return false => ret false
  | Raise x => raise x
  end.

Definition scripted_synthesize (e : Engine) (text voice : string) (speed : float)
  : M World (SynthesisResult float) :=
  λ w, (speaks (fields e w), w).

Definition scripted_cleanup (e : Engine) : M World unit :=
  modify (set_initialized e false).

#[global] Instance scripted : TTSEngineBase float Engine World := {|
  name := engine_name;
  priority := engine_priority;
  _initialized e w := initialized (fields e w);
  check_available := scripted_check_available;
  initialize := scripted_initialize;
  synthesize := scripted_synthesize;
  cleanup := scripted_cleanup
|}.
End Script.
Arguments Fields : clear implicits.
Arguments World : clear implicits.

End Scripted.

(** ** server/tts_engine.py *)

Module KoreanTTSEngine.

Inductive TTSBackend : Type := MELO | COSYVOICE | EDGE | AUTO.

Definition value (b : TTSBackend) : string :=
  match b with
  | MELO => "melo"
  | COSYVOICE => "cosyvoice"
  | EDGE => "edge"
  | AUTO => "auto"
  end.

Module TTSConfig.
Record t (float : Type) : Type := mk {
  backend : TTSBackend;
  voice : string;
  speed : float;
  sample_rate : Z;
  cache_enabled : bool;
  cache_dir : string
}.
Arguments mk {float}.
Arguments backend {float}.
Arguments voice {float}.
Arguments speed {float}.
Arguments sample_rate {float}.
Arguments cache_enabled {float}.
Arguments cache_dir {float}.
End TTSConfig.

Module TTSResult.
Record t (float : Type) : Type := mk {
  audio_bytes : list byte;
  sample_rate : Z;
  duration : float;
  text : string;
  voice : string;
  backend : string;
  cached : bool;
  processing_time_ms : float
}.
Arguments mk {float}.
Arguments audio_bytes {float}.
Arguments sample_rate {float}.
Arguments duration {float}.
Arguments text {float}.
Arguments voice {float}.
Arguments backend {float}.
Arguments cached {float}.
Arguments processing_time_ms {float}.
End TTSResult.

Section Engine.
Context {float : Type}.

(** What the code takes from outside the repository.
    - [float_str x] is [f"{x}"], [float_truthy x] is [bool(x)],
      [float_zero] is [0.0] and [float_div n d] is [n / d] for [d] not zero;
    - [sf_read data] is [soundfile.read(io.BytesIO(data))], as the number
      of frames and the sample rate read;
    - [import_melo], [import_cosyvoice], [import_edge] say whether the
      three [try] blocks of [initialize] run to their end;
    - the three [_synthesize_*] methods call the vendor models, an online
      service and an external codec process; each is taken as a function to
      audio bytes and a sample rate, or an exception;
    - [elapsed_ms] is the wall-clock time measured around a synthesis. *)
Context (float_str : float → string)
        (float_truthy : float → bool)
        (float_zero : float)
        (float_div : Z → Z → float)
        (sf_read : list byte → Outcome (Z * Z))
        (import_melo import_cosyvoice import_edge : bool)
        (_synthesize_melo _synthesize_cosyvoice _synthesize_edge :
           string → string → float → Outcome (list byte * Z))
        (elapsed_ms : float).

(** The engine object and the files of the machine it runs on: [_cache] is
    the memory tier, [files] maps a path to the content of the file there.
    The two model handles are not kept: the backends are functions above. *)
Record Self : Type := mkSelf {
  config : TTSConfig.t float;
  _initialized : bool;
  _available_backends : list string;
  _cache : gmap string (list byte);
  files : gmap string (list byte)
}.

(** [KoreanTTSEngine(config)] on a machine with the files [fs]. *)
Definition init (cfg : TTSConfig.t float) (fs : gmap string (list byte)) : Self :=
  mkSelf cfg false [] ∅ fs.

Definition add_backend (ok : bool) (b : string) (self : Self) : Self :=
  if ok then
    mkSelf (config self) (_initialized self) (_available_backends self ++ [b])
           (_cache self) (files self)
  else self.

Definition set_initialized (b : bool) (self : Self) : Self :=
  mkSelf (config self) b (_available_backends self) (_cache self) (files self).

Definition initialize : M Self bool :=
  modify (add_backend import_melo "melo");;
  modify (add_backend import_cosyvoice "cosyvoice");;
  modify (add_backend import_edge "edge");;
  self ← get;
  let ok := bool_decide (0 < length (_available_backends self)) in
  modify (set_initialized ok);;
  ret ok.

Definition get_backend : M Self string :=
  self ← get;
  match TTSConfig.backend (config self) with
  | AUTO =>
      match List.find (λ b, bool_decide (b ∈ _available_backends self))
                      ["melo"; "cosyvoice"; "edge"] with
      | Some b => ret b
      | None => raise (RuntimeError "No TTS backend available / TTS 백엔드 없음")
      end
  | b =>
      if bool_decide (value b ∈ _available_backends self) then ret (value b)
      else raise (RuntimeError ("Backend '" +:+ value b +:+ "' not available / 사용 불가"))
  end.

(** The string that is hashed. *)
Definition cache_content (text voice : string) (speed : float) : string :=
  text +:+ "|" +:+ voice +:+ "|" +:+ float_str speed.

Definition _cache_key (self : Self) (text voice : string) (speed : float) : string :=
  MD5.hexdigest (cache_content text voice speed).

(** [Path(self.config.cache_dir) / f"{key}.wav"] *)
Definition cache_path (self : Self) (key : string) : string :=
  TTSConfig.cache_dir (config self) +:+ "/" +:+ key +:+ ".wav".

Definition _get_cached (self : Self) (key : string) : option (list byte) :=
  if negb (TTSConfig.cache_enabled (config self)) then None
  else match _cache self !! key with
       | Some audio => Some audio
       | None =>
           match files self !! cache_path self key with
           | Some audio => Some audio
           | None => None
           end
       end.

Definition _set_cache (key : string) (audio_bytes : list byte) (self : Self) : Self :=
  if negb (TTSConfig.cache_enabled (config self)) then self
  else
    let memory :=
      if bool_decide (size (_cache self) < 1000)
      then <[key := audio_bytes]> (_cache self)
      else _cache self in
    mkSelf (config self) (_initialized self) (_available_backends self)
           memory (<[cache_path self key := audio_bytes]> (files self)).

Definition lift {A} (o : Outcome A) : M Self A := λ self, (o, self).

(** [n / d] on integers. *)
Definition true_div (n d : Z) : M Self float :=
  if (d =? 0)%Z then raise (OtherError "ZeroDivisionError" "division by zero")
  else ret (float_div n d).

(** [voice or self.config.voice] and [speed or self.config.speed] *)
Definition pick_voice (self : Self) (voice : option string) : string :=
  if truthy_opt_str voice then default "" voice
  else TTSConfig.voice (config self).

Definition pick_speed (self : Self) (speed : option float) : float :=
  match speed with
  | Some s => if float_truthy s then s else TTSConfig.speed (config self)
  | None => TTSConfig.speed (config self)
  end.

(** Lines 206-208 of [synthesize]. *)
Definition ensure_initialized : M Self unit :=
  self ← get;
  if negb (_initialized self) then
    ok ← initialize;
    if negb ok then raise (RuntimeError "TTS initialization failed / TTS 초기화 실패")
    else ret tt
  else ret tt.

(** Lines 210-264 of [synthesize]. *)
Definition synthesize_initialized (text : string) (voice : option string)
    (speed : option float) : M Self (TTSResult.t float) :=
  self ← get;
  let voice := pick_voice self voice in
  let speed := pick_speed self speed in
  let cache_key := _cache_key self text voice speed in
  let cached_audio := _get_cached self cache_key in
  if truthy_opt_bytes cached_audio then
    let audio := default [] cached_audio in
    '(frames, sr) ← lift (sf_read audio);
    duration ← true_div frames sr;
    ret (TTSResult.mk audio sr duration text voice "cache" true float_zero)
  else
    backend ← get_backend;
    '(audio_bytes, sample_rate) ←
      (if String.eqb backend "melo" then lift (_synthesize_melo text voice speed)
       else if String.eqb backend "cosyvoice" then lift (_synthesize_cosyvoice text voice speed)
       else if String.eqb backend "edge" then lift (_synthesize_edge text voice speed)
       else raise (RuntimeError ("Unknown backend / 알 수 없는 백엔드: " +:+ backend)));
    '(frames, _) ← lift (sf_read audio_bytes);
    duration ← true_div frames sample_rate;
    modify (_set_cache cache_key audio_bytes);;
    ret (TTSResult.mk audio_bytes sample_rate duration text voice backend false elapsed_ms).

Definition synthesize (text : string) (voice : option string) (speed : option float)
  : M Self (TTSResult.t float) :=
  ensure_initialized;;
  synthesize_initialized text voice speed.

(** A run of stores, oldest first. *)
Definition stores (ops : list (string * list byte)) (self : Self) : Self :=
  foldl (λ s op, _set_cache op.1 op.2 s) self ops.

(** Write-through: what the memory tier holds has a file on disk. *)
Definition write_through (self : Self) : Prop :=
  ∀ k, is_Some (_cache self !! k) → is_Some (files self !! cache_path self k).

(** One request to the engine. *)
Record Request : Type := mkRequest {
  req_text : string;
  req_voice : option string;
  req_speed : option float
}.

(** The engine after a run of requests, oldest first, whether they succeed
    or raise. *)
Definition serve (reqs : list Request) (self : Self) : Self :=
  foldl (λ s r, (synthesize (req_text r) (req_voice r) (req_speed r) s).2) self reqs.

End Engine.
Arguments Self : clear implicits.

End KoreanTTSEngine.

(** ** Concrete registries

    Floats are stood for by integers counting tenths ([10] is [1.0]). *)

Module RegistryExamples.
Import Base EngineRegistry.

Definition hello : string := "안녕하세요".

Definition riff : list byte := [x52; x49; x46; x46]%byte.

Definition clip : SynthesisResult Z := mkSynthesisResult riff 24000%Z 12%Z "KR" false.

(** Three plugins with the priorities 10, 80 and 20. *)
Definition engine_a : Scripted.Engine := Scripted.mkEngine 0 "a" 10.
Definition engine_b : Scripted.Engine := Scripted.mkEngine 1 "b" 80.
Definition engine_c : Scripted.Engine := Scripted.mkEngine 2 "c" 20.

Definition ready : Scripted.Fields Z :=
  Scripted.mkFields true false (Return true) (Return clip).

Definition gone : Scripted.Fields Z :=
  Scripted.mkFields false false (Return false) (Raise (RuntimeError "not installed")).

(** Installed, but its model does not load although it can speak. *)
Definition unloadable : Scripted.Fields Z :=
  Scripted.mkFields true false (Return false) (Return clip).

(** Installed, and its backend fails during synthesis. *)
Definition offline : Scripted.Fields Z :=
  Scripted.mkFields true true (Return true)
                    (Raise (OtherError "ConnectionError" "network down")).

Definition three_registered (w : Scripted.World Z) : State Scripted.Engine (Scripted.World Z) :=
  ((register_engine engine_a;; register_engine engine_b;; register_engine engine_c)
     (init w)).2.

Definition all_ready : State Scripted.Engine (Scripted.World Z) :=
  three_registered [ready; ready; ready].

Definition none_ready : State Scripted.Engine (Scripted.World Z) :=
  three_registered [gone; gone; gone].

(** [a] is made the active engine while it is installed; then it is
    removed, while [b] and [c] stay. *)
Definition a_chosen : State Scripted.Engine (Scripted.World Z) :=
  (set_active_engine "a" all_ready).2.

Definition a_removed : State Scripted.Engine (Scripted.World Z) :=
  set_world [gone; ready; ready] a_chosen.

Definition a_unloadable : State Scripted.Engine (Scripted.World Z) :=
  three_registered [unloadable; ready; ready].

Definition a_offline : State Scripted.Engine (Scripted.World Z) :=
  three_registered [offline; ready; ready].

(** The two engines of the repository on a machine without [melotts]. *)
Definition vendor_audio : Outcome (list byte * Z * Z) := Return (riff, 44100%Z, 12%Z).

#[global] Instance builtin_here : TTSEngineBase Z Engines.Engine Engines.World :=
  Engines.builtin (Return 44100%Z) (λ _ _ _, vendor_audio) (λ _ _ _, Return (riff, 12%Z)).

Definition no_melo : State Engines.Engine Engines.World :=
  ((register_engine Engines.MeloEngine;; register_engine Engines.EdgeEngine)
     (init (Engines.mkWorld false true false NOT_INSTALLED false 44100 false NOT_INSTALLED))).2.

End RegistryExamples.

(** ** Concrete caches *)

Module CacheExamples.
Import KoreanTTSEngine.

(** Floats as integers counting tenths: [f"{x}"] shows one decimal. *)
Definition tenths_str (x : Z) : string :=
  pretty (x / 10)%Z +:+ "." +:+ pretty (x mod 10)%Z.
Definition tenths_truthy (x : Z) : bool := negb (x =? 0)%Z.
Definition tenths_div (n d : Z) : Z := (10 * n / d)%Z.

(** A reader that takes any non-empty data as one frame per byte at
    24 kHz. *)
Definition read_any (data : list byte) : Outcome (Z * Z) :=
  match data with
  | [] => Raise (OtherError "LibsndfileError" "Format not recognised")
  | _ => Return (Z.of_nat (length data), 24000%Z)
  end.

Definition riff : list byte := [x52; x49; x46; x46]%byte.
Definition wave : list byte := [x57; x41; x56; x45]%byte.

(** Only the online backend is installed; it answers [riff]. *)
Definition backend_riff (text voice : string) (speed : Z) : Outcome (list byte * Z) :=
  Return (riff, 24000%Z).
Definition backend_none (text voice : string) (speed : Z) : Outcome (list byte * Z) :=
  Raise (RuntimeError "backend not loaded").

Abbreviation synthesize_here :=
  (synthesize tenths_str tenths_truthy 0%Z tenths_div read_any false false true
              backend_none backend_none backend_riff 7%Z).

Definition default_config : TTSConfig.t Z :=
  TTSConfig.mk AUTO "KR" 10%Z 24000%Z true "/app/audio_cache".

Definition fresh : Self Z := init default_config ∅.

(** A thousand stores, under the keys ["0"] to ["999"], fill the memory
    tier of a new engine. *)
Definition thousand : list (string * list byte) :=
  map (λ n : nat, (pretty n, wave)) (seq 0 1000).

Definition full : Self Z := stores thousand fresh.

(** The engine after it has served the request (["a|b"], ["c"]). *)
Definition first_served : Self Z := (synthesize_here "a|b" (Some "c") None fresh).2.

End CacheExamples.

(** ** engines/registry.py, status and voices; engines/base.py, [get_info] *)

Module Status.
Import Base EngineRegistry.

Record VoiceInfo : Type := mkVoiceInfo {
  id : string;
  voice_name : string;
  language : string;
  gender : string;
  description : string
}.

(** The dict [get_info] returns, with the key [is_active] that
    [get_status] adds ([None] while the key is absent). *)
Record EngineInfo : Type := mkEngineInfo {
  info_name : string;
  info_display_name : string;
  info_version : string;
  info_languages : list string;
  info_priority : Z;
  info_available : bool;
  info_status_message : string;
  info_initialized : bool;
  info_is_active : option bool
}.

(** The dict [get_status] returns. *)
Record StatusReport : Type := mkStatusReport {
  total_engines : nat;
  available_engines : nat;
  active_engine : option string;
  engines : list EngineInfo
}.

Section Status.
Context {float Engine World : Type} `{!TTSEngineBase float Engine World}.

(** [==] on engine objects, which is identity. *)
Context `{!EqDecision Engine}.

(** The class attributes and the method of an engine that the contract
    class above leaves out; [get_voices] returns a fixed table in the
    engines of the repository. *)
Context (display_name version : Engine → string)
        (languages : Engine → list string)
        (get_voices : Engine → list VoiceInfo).

(** [TTSEngineBase.get_info] *)
Definition get_info (e : Engine) : M (State Engine World) EngineInfo :=
  '(available, msg) ← call_check_available e;
  st ← get;
  ret (mkEngineInfo (name e) (display_name e) (version e) (languages e)
                    (priority e) available msg (_initialized e (world st)) None).

Definition set_is_active (b : bool) (info : EngineInfo) : EngineInfo :=
  mkEngineInfo (info_name info) (info_display_name info) (info_version info)
               (info_languages info) (info_priority info) (info_available info)
               (info_status_message info) (info_initialized info) (Some b).

(** The loop of [get_status]. *)
Fixpoint collect_info (es : list Engine) : M (State Engine World) (list EngineInfo) :=
  match es with
  | [] => ret []
  | engine :: es' =>
      info ← get_info engine;
      st ← get;
      let info := set_is_active (bool_decide (Some engine = _active_engine st)) info in
      engines_info ← collect_info es';
      ret (info :: engines_info)
  end.

Definition get_status : M (State Engine World) StatusReport :=
  st ← get;
  engines_info ← collect_info (dict_values (_engines st));
  st ← get;
  let total := length (_engines st) in
  available ← get_available_engines;
  st ← get;
  ret (mkStatusReport total (length available) (name <$> _active_engine st)
                      engines_info).

Definition get_all_voices : M (State Engine World) (dict (list VoiceInfo)) :=
  available ← get_available_engines;
  ret (foldl (λ voices engine, dict_set voices (name engine) (get_voices engine))
             [] available).

(** Every engine is filed under its own name, and no name occurs twice:
    what [register_engine] keeps of a dict. *)
Definition well_keyed (st : State Engine World) : Prop :=
  Forall (λ entry, entry.1 = name entry.2) (_engines st)
  ∧ NoDup (dict_keys (_engines st)).

End Status.

End Status.

(** ** docker/server/tts_api.py *)

Module API.

Record TTSRequest (float : Type) : Type := mkTTSRequest {
  text : string;
  voice : string;
  speed : float;
  engine : option string
}.
Arguments mkTTSRequest {float}.
Arguments text {float}.
Arguments voice {float}.
Arguments speed {float}.
Arguments engine {float}.

(** What a handler gives back to the framework: a response, or the
    [HTTPException] it raises. *)
Inductive HTTPResult : Type :=
| Response (content : list byte) (media_type : string) (headers : list (string * string))
| HTTPException (status_code : Z) (detail : string).

(** The dict [/tts/json] returns. *)
Inductive JsonReply (float : Type) : Type :=
| Success (audio_base64 : string) (sample_rate : Z) (duration : float)
          (voice engine : string) (processing_time_ms : float)
| Failure (error : string).
Arguments Success {float}.
Arguments Failure {float}.

(** The dict [/health] returns. *)
Record HealthReply : Type := mkHealthReply {
  status : string;
  health_available_engines : nat;
  health_active_engine : option string;
  timestamp : string
}.

Definition dquote : string := String (ascii_of_nat 34) EmptyString.

Section Handlers.
Context {float Engine World : Type} `{!Base.TTSEngineBase float Engine World}.
Context `{!EqDecision Engine}.
Context (display_name version : Engine → string)
        (languages : Engine → list string).

(** From outside the repository: [str(x)] of a float, whether a class
    other than [RuntimeError] and [ValueError] derives from [RuntimeError],
    [base64.b64encode(data).decode()], and the readings of the clock: the
    processing time measured, [int(time.time())] and
    [datetime.now().isoformat()] as text.  The handlers run on the registry
    [get_registry()] returns, once discovery is done. *)
Context (float_str : float → string)
        (is_runtime_error : string → bool)
        (b64encode : list byte → string)
        (processing_time : float)
        (unix_time : string)
        (now : string).

(** Which [except] clause of [/tts] takes an exception. *)
Definition caught_as_runtime (e : PyExc) : bool :=
  match e with
  | RuntimeError _ => true
  | ValueError _ => false
  | OtherError cls _ => is_runtime_error cls
  end.

(** The [try] body the two handlers share: the synthesis, then the name of
    the active engine, read when the reply is built. *)
Definition speak (request : TTSRequest float)
  : M (EngineRegistry.State Engine World) (Base.SynthesisResult float * string) :=
  result ← EngineRegistry.synthesize (text request) (voice request) (speed request)
                                     (engine request);
  active ← EngineRegistry.get_active_engine;
  ret (result, Base.name active).

(** [POST /tts] *)
Definition synthesize (request : TTSRequest float)
  : EngineRegistry.State Engine World → HTTPResult * EngineRegistry.State Engine World :=
  λ st,
    match speak request st with
    | (Return (result, engine_name), st') =>
        (Response (Base.audio_bytes result) "audio/wav"
           [ ("X-TTS-Duration", float_str (Base.duration result));
             ("X-TTS-Voice", Base.voice result);
             ("X-TTS-Engine", engine_name);
             ("X-TTS-Processing-Time-Ms", float_str processing_time);
             ("Content-Disposition",
              "attachment; filename=" +:+ dquote +:+ "tts_" +:+ unix_time
                +:+ ".wav" +:+ dquote) ],
         st')
    | (Raise e, st') =>
        (if caught_as_runtime e then HTTPException 503 (exc_message e)
         else HTTPException 500 (exc_message e),
         st')
    end.

(** [POST /tts/json] *)
Definition synthesize_json (request : TTSRequest float)
  : EngineRegistry.State Engine World → JsonReply float * EngineRegistry.State Engine World :=
  λ st,
    match speak request st with
    | (Return (result, engine_name), st') =>
        (Success (b64encode (Base.audio_bytes result)) (Base.sample_rate result)
                 (Base.duration result) (Base.voice result) engine_name
                 processing_time,
         st')
    | (Raise e, st') => (Failure (exc_message e), st')
    end.

(** [GET /health] *)
Definition health : M (EngineRegistry.State Engine World) HealthReply :=
  report ← Status.get_status display_name version languages;
  ret (mkHealthReply
         (if bool_decide (0 < Status.available_engines report)
          then "healthy" else "degraded")
         (Status.available_engines report) (Status.active_engine report) now).

End Handlers.

End API.

(** ** Registries built by registration *)

Module Registration.
Import Base EngineRegistry.

Section Registration.
Context {float Engine World : Type} `{!TTSEngineBase float Engine World}.

(** The registry after the engines [es] have been registered in turn. *)
Definition registered (es : list Engine) (w : World) : State Engine World :=
  foldl (λ st e, (register_engine e st).2) (init w) es.

(** The log entries of a round of [cleanup] calls. *)
Definition cleaned (es : list Engine) : list (Engine * Method) :=
  map (λ e, (e, Cleanup)) es.

End Registration.

End Registration.

(** ** The backends of the server engine *)

Module Backends.

(** The names the three [try] blocks of [KoreanTTSEngine.initialize] add,
    in their order. *)
Definition imported (import_melo import_cosyvoice import_edge : bool) : list string :=
  (if import_melo then ["melo"] else [])
    ++ (if import_cosyvoice then ["cosyvoice"] else [])
    ++ (if import_edge then ["edge"] else []).

End Backends.

(** ** Concrete inputs for the status, the handlers and the server engine *)

Module MoreExamples.
Import Base EngineRegistry RegistryExamples.

#[global] Instance scripted_engine_eq : EqDecision Scripted.Engine.
Proof. solve_decision. Defined.

#[global] Instance builtin_engine_eq : EqDecision Engines.Engine.
Proof. solve_decision. Defined.

(** Attributes of the scripted plugins. *)
Definition shown_name (e : Scripted.Engine) : string :=
  "Plugin " +:+ Scripted.engine_name e.
Definition one_version (e : Scripted.Engine) : string := "1.0.0".
Definition korean_only (e : Scripted.Engine) : list string := ["ko"].
Definition one_voice (e : Scripted.Engine) : list Status.VoiceInfo :=
  [Status.mkVoiceInfo "KR" ("Voice of " +:+ Scripted.engine_name e) "ko" "unknown" ""].

(** A second object named ["a"]. *)
Definition another_a : Scripted.Engine := Scripted.mkEngine 3 "a" 50.

(** [base64.b64encode(data).decode()] *)
Definition b64_alphabet : list ascii :=
  list_ascii_of_string "ABCDEFGHIJKLMNOPQRSTUVWXYZabcdefghijklmnopqrstuvwxyz0123456789+/".

Definition b64_char (n : N) : ascii := nth (N.to_nat n) b64_alphabet "="%char.

Fixpoint b64_groups (bs : list N) : list ascii :=
  match bs with
  | [] => []
  | [a] =>
      [b64_char (a / 4); b64_char ((a mod 4) * 16); "="%char; "="%char]
  | [a; b] =>
      [b64_char (a / 4); b64_char ((a mod 4) * 16 + b / 16);
       b64_char ((b mod 16) * 4); "="%char]
  | a :: b :: c :: rest =>
      b64_char (a / 4) :: b64_char ((a mod 4) * 16 + b / 16)
        :: b64_char ((b mod 16) * 4 + c / 64) :: b64_char (c mod 64)
        :: b64_groups rest
  end%N.

Definition b64encode (data : list byte) : string :=
  string_of_list_ascii (b64_groups (map Byte.to_N data)).

(** The subclasses of [RuntimeError] among the built-in exceptions. *)
Definition builtin_runtime_error (cls : string) : bool :=
  bool_decide (cls ∈ ["NotImplementedError"; "RecursionError"; "PythonFinalizationError"]).

(** Requests to the handlers. *)
Definition ask_b : API.TTSRequest Z := API.mkTTSRequest hello "KR" 10%Z (Some "b").
Definition ask_any : API.TTSRequest Z := API.mkTTSRequest hello "KR" 10%Z None.
Definition ask_zz : API.TTSRequest Z := API.mkTTSRequest hello "KR" 10%Z (Some "zz").

(** The machine of the repository engines with only [edge-tts] installed,
    and with both packages installed. *)
Definition edge_only : Engines.World :=
  Engines.mkWorld false true false NOT_INSTALLED false 44100 false NOT_INSTALLED.
Definition both_installed : Engines.World :=
  Engines.mkWorld true true false NOT_INSTALLED false 44100 false NOT_INSTALLED.

(** A server engine whose cache is switched off. *)
Definition uncached : KoreanTTSEngine.Self Z :=
  KoreanTTSEngine.init
    (KoreanTTSEngine.TTSConfig.mk KoreanTTSEngine.AUTO "KR" 10%Z 24000%Z false
                                  "/app/audio_cache") ∅.

(** Three requests, two of them for the same words. *)
Definition three_requests : list (@KoreanTTSEngine.Request Z) :=
  [ KoreanTTSEngine.mkRequest hello None None;
    KoreanTTSEngine.mkRequest "a|b" (Some "c") (Some 12%Z);
    KoreanTTSEngine.mkRequest hello (Some "KR") (Some 10%Z) ].

End MoreExamples.

(** * Properties *)

(** ** [dict] and [sorted] *)

Section DictFacts.
Context {V : Type}.
Implicit Types (d : dict V) (k : string) (v : V).

Lemma dict_get_set_same d k v : dict_get (dict_set d k v) k = Some v.
Proof.
  induction d as [|[k' v'] d IH]; simpl.
  - by rewrite String.eqb_refl.
  - destruct (String.eqb k' k) eqn:E; simpl; rewrite E; [done | apply IH].
Qed.

Lemma dict_get_set_other d k k' v :
  k ≠ k' → dict_get (dict_set d k v) k' = dict_get d k'.
Proof.
  intros Hne. induction d as [|[k0 v0] d IH]; simpl.
  - destruct (String.eqb_spec k k'); [contradiction | done].
  - destruct (String.eqb_spec k0 k) as [->|Hk]; simpl.
    + destruct (String.eqb_spec k k'); [contradiction | done].
    + by rewrite IH.
Qed.

Lemma dict_get_None d k : dict_get d k = None ↔ k ∉ dict_keys d.
Proof.
  induction d as [|[k' v'] d IH]; simpl.
  - split; [intros _; apply not_elem_of_nil | done].
  - rewrite not_elem_of_cons. destruct (String.eqb_spec k' k) as [->|Hk].
    + split; [done | intros [? _]; congruence].
    + rewrite IH. split; [intros H; split; [by intros -> | done] | by intros [_ H]].
Qed.

(** Registering under a new name puts the engine after those registered
    before: the dict lists engines in the order of their registration. *)
Lemma dict_set_new d k v :
  k ∉ dict_keys d → dict_set d k v = d ++ [(k, v)].
Proof.
  induction d as [|[k' v'] d IH]; simpl; [done |].
  rewrite not_elem_of_cons. intros [Hk Hd].
  destruct (String.eqb_spec k' k); [congruence | by rewrite IH].
Qed.

(** Registering again under a name keeps the name's place. *)
Lemma dict_set_keys_old d k v :
  k ∈ dict_keys d → dict_keys (dict_set d k v) = dict_keys d.
Proof.
  induction d as [|[k' v'] d IH]; simpl.
  - intros H. by apply elem_of_nil in H.
  - intros H. destruct (String.eqb_spec k' k) as [->|Hk]; simpl; [done |].
    f_equal. apply IH. apply elem_of_cons in H as [->|H]; [done | exact H].
Qed.
End DictFacts.

Section SortedFacts.
Context {A : Type} (key : A → Z).
Implicit Types (x : A) (l : list A).

Lemma insert_by_perm x l : insert_by key x l ≡ₚ x :: l.
Proof.
  induction l as [|y l IH]; simpl; [done |].
  destruct (key x <=? key y)%Z; [done |].
  rewrite IH. apply Permutation_swap.
Qed.

Lemma sorted_perm l : sorted key l ≡ₚ l.
Proof.
  induction l as [|x l IH]; simpl; [done |].
  unfold sorted in *. simpl. by rewrite insert_by_perm, IH.
Qed.

Lemma insert_by_sorted x l :
  StronglySorted (key_le key) l → StronglySorted (key_le key) (insert_by key x l).
Proof.
  induction 1 as [|y l Hs IH Hy]; simpl.
  - repeat constructor.
  - destruct (Z.leb_spec (key x) (key y)) as [Hle|Hlt].
    + constructor; [by constructor |].
      constructor; [exact Hle |].
      eapply Forall_impl; [exact Hy |]. unfold key_le. intros; simpl in *. lia.
    + constructor; [exact IH |].
      rewrite insert_by_perm. constructor; [unfold key_le; lia | exact Hy].
Qed.

Lemma sorted_sorted l : StronglySorted (key_le key) (sorted key l).
Proof.
  induction l as [|x l IH]; [constructor |].
  unfold sorted in *. simpl. by apply insert_by_sorted.
Qed.

(** Stability: elements with the same key keep their relative order. *)
Lemma insert_by_stable (k : Z) x l :
  filter (λ a, key a = k) (insert_by key x l) = filter (λ a, key a = k) (x :: l).
Proof.
  induction l as [|y l IH]; simpl; [done |].
  destruct (Z.leb_spec (key x) (key y)) as [Hle|Hlt]; [done |].
  rewrite filter_cons, IH, !filter_cons.
  repeat case_decide; try done; lia.
Qed.

Lemma sorted_stable (k : Z) l :
  filter (λ a, key a = k) (sorted key l) = filter (λ a, key a = k) l.
Proof.
  induction l as [|x l IH]; [done |].
  unfold sorted in *. simpl. rewrite insert_by_stable, !filter_cons, IH. done.
Qed.
End SortedFacts.

(** ** The registry *)

Section RegistryFacts.
Import Base EngineRegistry.
Context {float Engine World : Type} `{!TTSEngineBase float Engine World}.
Implicit Types (st : State Engine World) (e eng : Engine) (es : list Engine).

Local Ltac run :=
  unfold mbind, mret, M_bind, M_ret, bind, ret, raise, get, modify; simpl.

Lemma call_check_available_run e st :
  call_check_available e st =
    (Return (check_available e (world st)).1,
     mkState (_engines st) (_active_engine st) (check_available e (world st)).2
             (calls st ++ [(e, CheckAvailable)]) (stdout st)).
Proof.
  unfold call_check_available, call.
  by destruct (check_available e (world st)) as [r w].
Qed.

Lemma collect_available_run es st :
  collect_available es st =
    (Return (filter (λ p, p.2 = true) (zip es (answers es (world st)))).*1,
     mkState (_engines st) (_active_engine st) (after_checks es (world st))
             (calls st ++ checked es) (stdout st)).
Proof.
  revert st. induction es as [|e es IH]; intros st.
  - destruct st. simpl. run. by rewrite app_nil_r.
  - simpl. run. rewrite call_check_available_run.
    destruct (check_available e (world st)) as [[b msg] w] eqn:E. simpl.
    rewrite IH. simpl. rewrite <- app_assoc. simpl.
    rewrite filter_cons. simpl.
    destruct b; case_decide; try done.
Qed.

Lemma get_available_engines_run st :
  get_available_engines st =
    (Return (sorted (λ e, - priority e)%Z (available_now st)), polled st).
Proof.
  unfold get_available_engines. run. by rewrite collect_available_run.
Qed.

Lemma get_best_engine_run st :
  get_best_engine st =
    (Return (head (sorted (λ e, - priority e)%Z (available_now st))), polled st).
Proof.
  unfold get_best_engine. run. by rewrite get_available_engines_run.
Qed.

(** With no active engine, the best available engine is chosen and kept;
    with none available the call raises. *)
Lemma get_active_engine_selects st :
  _active_engine st = None →
  get_active_engine st =
    match sorted (λ e, - priority e)%Z (available_now st) with
    | [] => (Raise (RuntimeError no_engine_message), polled st)
    | best :: _ => (Return best, set_active (Some best) (polled st))
    end.
Proof.
  intros Hnone. unfold get_active_engine. run. rewrite Hnone.
  rewrite get_best_engine_run.
  by destruct (sorted _ (available_now st)).
Qed.

Lemma sorted_descending (l : list Engine) :
  StronglySorted (λ a b, (priority b ≤ priority a)%Z) (sorted (λ e, - priority e)%Z l).
Proof.
  pose proof (sorted_sorted (λ e : Engine, (- priority e)%Z) l) as Hs.
  induction Hs as [|x l' Hs IH Hx]; constructor; [exact IH |].
  eapply Forall_impl; [exact Hx |]. unfold key_le. intros; simpl in *. lia.
Qed.

Lemma sorted_by_priority_stable (p : Z) (l : list Engine) :
  filter (λ e, priority e = p) (sorted (λ e, - priority e)%Z l)
  = filter (λ e, priority e = p) l.
Proof.
  rewrite (list_filter_iff (λ e, priority e = p) (λ e, (- priority e)%Z = (- p)%Z))
    by (intros; lia).
  rewrite sorted_stable.
  apply list_filter_iff. intros; lia.
Qed.

Lemma available_now_nil st :
  Forall (λ b, b = false) (answers (dict_values (_engines st)) (world st)) →
  available_now st = [].
Proof.
  unfold available_now. generalize (world st) as w.
  induction (dict_values (_engines st)) as [|e es IH]; intros w Hall; [done |].
  simpl in *. inversion Hall as [|b bs Hb Hbs]; subst.
  rewrite filter_cons. simpl. rewrite Hb.
  case_decide; [done |]. by apply IH.
Qed.

Lemma resolve_named st nm eng :
  nm ≠ "" → dict_get (_engines st) nm = Some eng →
  resolve (Some nm) st = (Return eng, st).
Proof.
  intros Hnm Hget. unfold resolve, get_engine. run.
  destruct nm as [|c nm]; [done |]. simpl. by rewrite Hget.
Qed.

Lemma resolve_active st engine :
  truthy_opt_str engine = false → resolve engine st = get_active_engine st.
Proof. intros H. unfold resolve. by rewrite H. Qed.

Lemma ensure_initialized_run eng st :
  ensure_initialized eng st =
    if _initialized eng (world st) then (Return tt, st)
    else match initialize eng (world st) with
         | (Return _, w) =>
             (Return tt, mkState (_engines st) (_active_engine st) w
                                 (calls st ++ [(eng, Initialize)]) (stdout st))
         | (Raise x, w) =>
             (Raise x, mkState (_engines st) (_active_engine st) w
                               (calls st ++ [(eng, Initialize)]) (stdout st))
         end.
Proof.
  unfold ensure_initialized, call_initialize, call. run.
  destruct (_initialized eng (world st)); simpl; [done |].
  by destruct (initialize eng (world st)) as [[ok|x] w].
Qed.

Lemma call_synthesize_run eng text voice speed st :
  call_synthesize eng text voice speed st =
    ((Base.synthesize eng text voice speed (world st)).1,
     mkState (_engines st) (_active_engine st)
             (Base.synthesize eng text voice speed (world st)).2
             (calls st ++ [(eng, Synthesize)]) (stdout st)).
Proof.
  unfold call_synthesize, call.
  by destruct (Base.synthesize eng text voice speed (world st)).
Qed.

(** The steps of [synthesize], once the engine is resolved. *)
Lemma synthesize_steps st text voice speed engine eng st1 st2 :
  resolve engine st = (Return eng, st1) →
  ensure_initialized eng st1 = (Return tt, st2) →
  synthesize text voice speed engine st = call_synthesize eng text voice speed st2.
Proof.
  intros Hres Hinit. unfold synthesize. run. by rewrite Hres, Hinit.
Qed.

(** What [initialize] returns does not reach [synthesize]: after a [False]
    the engine is asked to speak all the same. *)
Lemma synthesize_after_failed_initialize st text voice speed nm eng w :
  nm ≠ "" → dict_get (_engines st) nm = Some eng →
  _initialized eng (world st) = false →
  initialize eng (world st) = (Return false, w) →
  synthesize text voice speed (Some nm) st =
    ((Base.synthesize eng text voice speed w).1,
     mkState (_engines st) (_active_engine st)
             (Base.synthesize eng text voice speed w).2
             (calls st ++ [(eng, Initialize); (eng, Synthesize)]) (stdout st)).
Proof.
  intros Hnm Hget Hno Hinit.
  erewrite synthesize_steps; [| by apply resolve_named |].
  2:{ rewrite ensure_initialized_run, Hno, Hinit. reflexivity. }
  rewrite call_synthesize_run. simpl. by rewrite <- app_assoc.
Qed.

(** A newly named engine is listed after the engines registered before. *)
Lemma register_engine_last st e :
  name e ∉ dict_keys (_engines st) →
  dict_values (_engines (register_engine e st).2) = dict_values (_engines st) ++ [e].
Proof.
  intros Hnew. unfold register_engine, print, set_engines. run.
  rewrite dict_set_new by done. unfold dict_values. by rewrite map_app.
Qed.

(** *** Claims *)

(** C1, as amended: when an active engine has been chosen,
    [get_active_engine] returns it and changes nothing, whether or not the
    engine is still available: no availability check is made (the call log
    is unchanged) and no other engine is selected.  Only when no active
    engine is set does the registry select the available engine of highest
    priority, which it then keeps, or raise when none is available. *)
Theorem get_active_engine_keeps_active st :
  (∀ active, _active_engine st = Some active →
             get_active_engine st = (Return active, st))
  ∧ (_active_engine st = None →
     get_active_engine st =
       match sorted (λ e, - priority e)%Z (available_now st) with
       | [] => (Raise (RuntimeError no_engine_message), polled st)
       | best :: _ => (Return best, set_active (Some best) (polled st))
       end).
Proof.
  split; [| apply get_active_engine_selects].
  intros active Hact. unfold get_active_engine. run. by rewrite Hact.
Qed.



(** C4, as amended: [set_active_engine] raises nothing.  It returns [False]
    and leaves the registry as it was when the name is not registered; it
    returns [False], prints a line and leaves the active engine as it was
    when the engine answers that it is not available; otherwise it makes
    the engine the active one and returns [True].  The only engine method it
    calls is [check_available], at most once. *)
Theorem set_active_engine_outcome st nm :
  match dict_get (_engines st) nm with
  | None => set_active_engine nm st = (Return false, st)
  | Some engine =>
      let '((is_available, msg), w) := check_available engine (world st) in
      set_active_engine nm st =
        if is_available then
          (Return true,
           mkState (_engines st) (Some engine) w
                   (calls st ++ [(engine, CheckAvailable)]) (stdout st))
        else
          (Return false,
           mkState (_engines st) (_active_engine st) w
                   (calls st ++ [(engine, CheckAvailable)])
                   (stdout st ++ ["[Registry] Engine " +:+ nm
                                    +:+ " not available / 사용 불가: " +:+ msg]))
  end.
Proof.
  unfold set_active_engine. run.
  destruct (dict_get (_engines st) nm) as [engine|]; [| done].
  rewrite call_check_available_run.
  destruct (check_available engine (world st)) as [[ok msg] w]. simpl.
  by destruct ok.
Qed.

(** C6, as amended: an exception raised by the engine's [synthesize]
    during a registry [synthesize] call is raised by the registry call
    unchanged. *)
Theorem synthesize_propagates st text voice speed engine eng st1 st2 x :
  resolve engine st = (Return eng, st1) →
  ensure_initialized eng st1 = (Return tt, st2) →
  (Base.synthesize eng text voice speed (world st2)).1 = Raise x →
  (synthesize text voice speed engine st).1 = Raise x.
Proof.
  intros Hres Hinit Hx.
  rewrite (synthesize_steps _ _ _ _ _ _ _ _ Hres Hinit), call_synthesize_run.
  exact Hx.
Qed.
End RegistryFacts.

(** *** The claims on concrete registries *)

Section RegistryCases.
Import Base EngineRegistry RegistryExamples.

Lemma get_active_engine_keeps_active_witness :
  _active_engine a_removed = Some engine_a
  ∧ get_active_engine a_removed = (Return engine_a, a_removed).
Proof.
  split; [reflexivity |].
  apply (get_active_engine_keeps_active a_removed). reflexivity.
Defined.

(** C1, as stated, fails: [a] was made active while installed and has since
    been removed; [b], of higher priority, is available.  The registry still
    returns [a], and does not select [b]. *)
Lemma get_active_engine_returns_unavailable :
  (set_active_engine "a" all_ready).1 = Return true
  ∧ _active_engine a_removed = Some engine_a
  ∧ (check_available engine_a (world a_removed)).1.1 = false
  ∧ (get_best_engine a_removed).1 = Return (Some engine_b)
  ∧ (get_active_engine a_removed).1 = Return engine_a
  ∧ (get_active_engine a_removed).1 ≠ Return engine_b.
Proof. vm_compute. repeat split; discriminate. Qed.



(** C4, as stated, fails: a name that is not registered and an engine that
    is registered but not available get the same answer, the value [False];
    no error is raised in either case. *)
Lemma set_active_engine_no_error :
  dict_get (_engines a_removed) "zz" = None
  ∧ dict_get (_engines a_removed) "a" = Some engine_a
  ∧ (check_available engine_a (world a_removed)).1.1 = false
  ∧ (set_active_engine "zz" a_removed).1 = Return false
  ∧ (set_active_engine "a" a_removed).1 = Return false.
Proof. vm_compute. repeat split. Qed.

(** C5 on the code: the registry drops what [initialize] returns.
    On a machine without [melotts], a request that names the engine [melo]
    has [initialize] return [False] and [synthesize] called all the same;
    the error that comes back is the one the engine raises after it has
    tried to initialize a second time.  For a plugin whose [initialize]
    returns [False] and whose [synthesize] does not check, the request
    succeeds. *)
Theorem synthesize_calls_engine_after_failed_initialize :
  initialize Engines.MeloEngine (world no_melo) = (Return false, world no_melo)
  ∧ (synthesize hello "KR" 10%Z (Some "melo") no_melo).1
      = Raise (RuntimeError "MeloTTS initialization failed / 초기화 실패")
  ∧ calls (synthesize hello "KR" 10%Z (Some "melo") no_melo).2
      = [(Engines.MeloEngine, Initialize); (Engines.MeloEngine, Synthesize)]
  ∧ initialize engine_a (world a_unloadable) = (Return false, world a_unloadable)
  ∧ (synthesize hello "KR" 10%Z (Some "a") a_unloadable).1 = Return clip
  ∧ calls (synthesize hello "KR" 10%Z (Some "a") a_unloadable).2
      = [(engine_a, Initialize); (engine_a, Synthesize)].
Proof. vm_compute. repeat split. Qed.

(** C6, as stated, fails: the engine's [ConnectionError] comes out of the
    registry call as it is. *)
Lemma synthesize_lets_engine_error_escape :
  (Base.synthesize engine_a hello "KR" 10%Z (world a_offline)).1
    = Raise (OtherError "ConnectionError" "network down")
  ∧ (synthesize hello "KR" 10%Z (Some "a") a_offline).1
    = Raise (OtherError "ConnectionError" "network down").
Proof. vm_compute. split; reflexivity. Qed.

Lemma synthesize_propagates_witness :
  resolve (Some "a") a_offline = (Return engine_a, a_offline)
  ∧ ensure_initialized engine_a a_offline = (Return tt, a_offline)
  ∧ (synthesize hello "KR" 10%Z (Some "a") a_offline).1
    = Raise (OtherError "ConnectionError" "network down").
Proof.
  split; [reflexivity |]. split; [reflexivity |].
  apply (synthesize_propagates a_offline hello "KR" 10%Z (Some "a") engine_a
           a_offline a_offline); reflexivity.
Defined.
End RegistryCases.

(** ** The fingerprint *)

Section MD5Facts.
Import MD5.

Lemma le_bytes_length n x : length (le_bytes n x) = n.
Proof. revert x. induction n as [|n IH]; intros x; simpl; [done | by rewrite IH]. Qed.

Lemma digest_length msg : length (digest msg) = 16.
Proof. unfold digest. by rewrite !length_app, !le_bytes_length. Qed.

Lemma string_of_list_ascii_length l :
  String.length (string_of_list_ascii l) = length l.
Proof. induction l as [|c l IH]; simpl; [done | by rewrite IH]. Qed.

Lemma hex_length bs : String.length (hex bs) = 2 * length bs.
Proof.
  unfold hex. rewrite string_of_list_ascii_length.
  induction bs as [|b bs IH]; simpl; [done | rewrite IH; lia].
Qed.

Lemma hexdigest_length data : String.length (hexdigest data) = 32.
Proof. unfold hexdigest. by rewrite hex_length, digest_length. Qed.
End MD5Facts.

(** ** The cache *)

Section CacheFacts.
Import KoreanTTSEngine.
Context {float : Type}.
Context (float_str : float → string)
        (float_truthy : float → bool)
        (float_zero : float)
        (float_div : Z → Z → float)
        (sf_read : list byte → Outcome (Z * Z))
        (import_melo import_cosyvoice import_edge : bool)
        (_synthesize_melo _synthesize_cosyvoice _synthesize_edge :
           string → string → float → Outcome (list byte * Z))
        (elapsed_ms : float).
Implicit Types (self : Self float) (key text : string) (audio : list byte).

Local Abbreviation _cache_key := (_cache_key float_str).
Local Abbreviation pick_speed := (pick_speed float_truthy).
Local Abbreviation initialize := (initialize import_melo import_cosyvoice import_edge).
Local Abbreviation ensure_initialized :=
  (ensure_initialized import_melo import_cosyvoice import_edge).
Local Abbreviation synthesize_initialized :=
  (synthesize_initialized float_str float_truthy float_zero float_div sf_read
              _synthesize_melo _synthesize_cosyvoice _synthesize_edge elapsed_ms).
Local Abbreviation synthesize :=
  (synthesize float_str float_truthy float_zero float_div sf_read
              import_melo import_cosyvoice import_edge
              _synthesize_melo _synthesize_cosyvoice _synthesize_edge elapsed_ms).
Local Abbreviation serve :=
  (serve float_str float_truthy float_zero float_div sf_read
         import_melo import_cosyvoice import_edge
         _synthesize_melo _synthesize_cosyvoice _synthesize_edge elapsed_ms).

Local Ltac run :=
  unfold mbind, mret, M_bind, M_ret, bind, ret, raise, get, modify, lift; simpl.

Lemma set_cache_config key audio self :
  config (_set_cache key audio self) = config self.
Proof. unfold _set_cache. by destruct (negb _). Qed.

Lemma set_cache_initialized key audio self :
  _initialized (_set_cache key audio self) = _initialized self.
Proof. unfold _set_cache. by destruct (negb _). Qed.

Lemma cache_path_config self self' key :
  config self' = config self → cache_path self' key = cache_path self key.
Proof. unfold cache_path. by intros ->. Qed.

Lemma set_cache_files key audio self :
  TTSConfig.cache_enabled (config self) = true →
  files (_set_cache key audio self) = <[cache_path self key := audio]> (files self).
Proof. unfold _set_cache. by intros ->. Qed.

Lemma set_cache_memory key audio self :
  TTSConfig.cache_enabled (config self) = true →
  _cache (_set_cache key audio self) =
    if bool_decide (size (_cache self) < 1000) then <[key := audio]> (_cache self)
    else _cache self.
Proof. unfold _set_cache. by intros ->. Qed.

Lemma set_cache_disabled key audio self :
  TTSConfig.cache_enabled (config self) = false → _set_cache key audio self = self.
Proof. unfold _set_cache. by intros ->. Qed.

(** The memory tier never holds more than its bound. *)
Lemma set_cache_size key audio self :
  (size (_cache self) ≤ 1000)%nat → (size (_cache (_set_cache key audio self)) ≤ 1000)%nat.
Proof.
  intros Hle. destruct (TTSConfig.cache_enabled (config self)) eqn:Hen.
  - rewrite set_cache_memory by done. case_bool_decide; [| done].
    destruct (_cache self !! key) eqn:Hk.
    + rewrite map_size_insert_Some; [lia | done].
    + rewrite map_size_insert_None; [lia | done].
  - by rewrite set_cache_disabled.
Qed.

Lemma set_cache_keeps key audio self k :
  is_Some (_cache self !! k) → is_Some (_cache (_set_cache key audio self) !! k).
Proof.
  intros Hk. destruct (TTSConfig.cache_enabled (config self)) eqn:Hen.
  - rewrite set_cache_memory by done. case_bool_decide; [| done].
    destruct (decide (key = k)) as [->|Hne].
    + rewrite lookup_insert_eq. by eexists.
    + by rewrite lookup_insert_ne.
  - by rewrite set_cache_disabled.
Qed.

Lemma set_cache_write_through key audio self :
  write_through self → write_through (_set_cache key audio self).
Proof.
  intros Hwt k. destruct (TTSConfig.cache_enabled (config self)) eqn:Hen.
  - rewrite (cache_path_config self) by apply set_cache_config.
    rewrite set_cache_memory, set_cache_files by done.
    destruct (decide (cache_path self key = cache_path self k)) as [Hp|Hp].
    + intros _. rewrite Hp, lookup_insert_eq. by eexists.
    + rewrite (lookup_insert_ne (files self)) by done.
      case_bool_decide; [| apply Hwt].
      destruct (decide (key = k)) as [->|Hne]; [done |].
      rewrite lookup_insert_ne by done. apply Hwt.
  - rewrite set_cache_disabled by done. apply Hwt.
Qed.

Lemma stores_full ops self :
  ¬ size (_cache self) < 1000 → _cache (stores ops self) = _cache self.
Proof.
  revert self. induction ops as [|[k a] ops IH]; intros self Hfull; [done |].
  unfold stores in *. simpl.
  assert (Hsame : _cache (_set_cache k a self) = _cache self).
  { destruct (TTSConfig.cache_enabled (config self)) eqn:Hen.
    - rewrite set_cache_memory by done. by case_bool_decide.
    - by rewrite set_cache_disabled. }
  rewrite IH; [done | by rewrite Hsame].
Qed.

Lemma stores_write_through ops self :
  write_through self → write_through (stores ops self).
Proof.
  revert self. induction ops as [|[k a] ops IH]; intros self Hwt; [done |].
  unfold stores in *. simpl. apply IH. by apply set_cache_write_through.
Qed.

Lemma init_write_through cfg fs : write_through (init cfg fs : Self float).
Proof. intros k [a Ha]. simpl in Ha. by rewrite lookup_empty in Ha. Qed.

(** *** One request *)

Lemma initialize_run self :
  ∃ bs, initialize self =
          (Return (bool_decide (0 < length bs)),
           mkSelf (config self) (bool_decide (0 < length bs)) bs (_cache self) (files self)).
Proof.
  unfold KoreanTTSEngine.initialize, add_backend, set_initialized. run.
  destruct import_melo, import_cosyvoice, import_edge; simpl; eexists; reflexivity.
Qed.

Local Opaque KoreanTTSEngine.initialize.

Lemma ensure_initialized_ready self :
  _initialized self = true → ensure_initialized self = (Return tt, self).
Proof. intros H. unfold KoreanTTSEngine.ensure_initialized. run. by rewrite H. Qed.

Lemma ensure_initialized_returns self self0 :
  ensure_initialized self = (Return tt, self0) →
  config self0 = config self ∧ _cache self0 = _cache self
  ∧ files self0 = files self ∧ _initialized self0 = true.
Proof.
  unfold KoreanTTSEngine.ensure_initialized. run.
  destruct (_initialized self) eqn:Hi; simpl.
  - by intros [= <-].
  - destruct (initialize_run self) as [bs ->].
    destruct (bool_decide (0 < length bs)); simpl; [| done].
    by intros [= <-].
Qed.

Local Transparent KoreanTTSEngine.initialize.

Lemma get_backend_state self : (get_backend self).2 = self.
Proof.
  unfold get_backend. run.
  destruct (TTSConfig.backend (config self)); simpl;
    repeat (match goal with |- context [match ?x with _ => _ end] => destruct x end; simpl);
    done.
Qed.

(** A hit: the cached bytes come back and the engine is left as it was. *)
Lemma synthesize_initialized_hit self text voice speed audio frames sr :
  _get_cached self (_cache_key self text (pick_voice self voice) (pick_speed self speed))
    = Some audio →
  audio ≠ [] → sf_read audio = Return (frames, sr) → sr ≠ 0%Z →
  synthesize_initialized text voice speed self =
    (Return (TTSResult.mk audio sr (float_div frames sr) text (pick_voice self voice)
                          "cache" true float_zero), self).
Proof.
  intros Hget Hne Hread Hsr. unfold KoreanTTSEngine.synthesize_initialized. run.
  rewrite Hget. destruct audio as [|b audio]; [done |]. simpl.
  rewrite Hread. simpl. unfold true_div.
  destruct (Z.eqb_spec sr 0); [done |]. reflexivity.
Qed.

(** A request that returns was either a hit, which changes nothing, or a
    miss, after which the result is stored. *)
Lemma synthesize_initialized_returns self text voice speed r self1 :
  synthesize_initialized text voice speed self = (Return r, self1) →
  let key := _cache_key self text (pick_voice self voice) (pick_speed self speed) in
  (_get_cached self key = Some (TTSResult.audio_bytes r)
   ∧ TTSResult.audio_bytes r ≠ []
   ∧ (∃ frames sr, sf_read (TTSResult.audio_bytes r) = Return (frames, sr) ∧ sr ≠ 0%Z)
   ∧ self1 = self ∧ TTSResult.cached r = true)
  ∨ (truthy_opt_bytes (_get_cached self key) = false
     ∧ (∃ frames sr, sf_read (TTSResult.audio_bytes r) = Return (frames, sr))
     ∧ self1 = _set_cache key (TTSResult.audio_bytes r) self
     ∧ TTSResult.cached r = false).
Proof.
  intros Hrun key. unfold KoreanTTSEngine.synthesize_initialized in Hrun.
  unfold mbind, mret, M_bind, M_ret, bind, ret, get, modify in Hrun.
  simpl in Hrun. fold key in Hrun.
  destruct (truthy_opt_bytes (_get_cached self key)) eqn:Htruthy.
  - left. destruct (_get_cached self key) as [[|b audio]|] eqn:Hget; try done.
    simpl in Hrun. destruct (sf_read (b :: audio)) as [[frames sr]|x] eqn:Hread; [| done].
    unfold true_div in Hrun. destruct (Z.eqb_spec sr 0); [done |].
    injection Hrun as <- <-. simpl. eauto 10.
  - right.
    pose proof (get_backend_state self) as Hst.
    destruct (get_backend self) as [[backend|x] self'] eqn:Hb; simpl in Hst; subst self';
      [| done].
    assert (Hsynth : ∃ o : Outcome (list byte * Z),
      (if String.eqb backend "melo" then lift (_synthesize_melo text (pick_voice self voice) (pick_speed self speed))
       else if String.eqb backend "cosyvoice" then lift (_synthesize_cosyvoice text (pick_voice self voice) (pick_speed self speed))
       else if String.eqb backend "edge" then lift (_synthesize_edge text (pick_voice self voice) (pick_speed self speed))
       else raise (RuntimeError ("Unknown backend / 알 수 없는 백엔드: " +:+ backend))) self
      = (o, self)).
    { repeat (destruct (String.eqb backend _); [by eexists |]). by eexists. }
    destruct Hsynth as [o Ho]. rewrite Ho in Hrun.
    destruct o as [[audio rate]|x]; [| done].
    destruct (sf_read audio) as [[frames sr]|x] eqn:Hread; [| done].
    unfold true_div in Hrun. destruct (Z.eqb_spec rate 0); [done |].
    injection Hrun as <- <-. simpl. eauto 10.
Qed.

(** Whatever the outcome, a request leaves the two tiers as they were or
    makes one store. *)
Lemma ensure_initialized_state self :
  let self0 := (ensure_initialized self).2 in
  config self0 = config self ∧ _cache self0 = _cache self ∧ files self0 = files self.
Proof.
  unfold KoreanTTSEngine.ensure_initialized, KoreanTTSEngine.initialize,
    add_backend, set_initialized. run.
  destruct (_initialized self); simpl; [done |].
  destruct import_melo, import_cosyvoice, import_edge; simpl;
    repeat (match goal with
            | |- context [bool_decide ?P] => destruct (bool_decide P)
            end; simpl);
    done.
Qed.

Lemma synthesize_initialized_state self text voice speed :
  let self1 := (synthesize_initialized text voice speed self).2 in
  self1 = self ∨ ∃ key audio, self1 = _set_cache key audio self.
Proof.
  unfold KoreanTTSEngine.synthesize_initialized, true_div. run.
  destruct (truthy_opt_bytes _).
  - left. destruct (sf_read _) as [[frames sr]|x]; simpl; [| done].
    by destruct (sr =? 0)%Z.
  - pose proof (get_backend_state self) as Hst.
    destruct (get_backend self) as [[backend|x] self'] eqn:Hb; simpl in Hst; subst self';
      simpl; [| by left].
    repeat (destruct (String.eqb backend _); simpl;
            [match goal with |- context [?f text ?v ?s] => destruct (f text v s) as [[audio rate]|x] end;
             simpl; [| by left];
             destruct (sf_read audio) as [[frames sr]|x]; simpl; [| by left];
             destruct (rate =? 0)%Z; simpl; [by left | right; eauto] |]).
    by left.
Qed.

Lemma write_through_same self self' :
  config self' = config self → _cache self' = _cache self → files self' = files self →
  write_through self → write_through self'.
Proof.
  intros Hc Hm Hf Hwt k. rewrite Hm, Hf, (cache_path_config self) by done. apply Hwt.
Qed.

Lemma synthesize_write_through self text voice speed :
  write_through self → write_through (synthesize text voice speed self).2.
Proof.
  intros Hwt. unfold KoreanTTSEngine.synthesize.
  unfold mbind, M_bind, bind.
  pose proof (ensure_initialized_state self) as (Hc & Hm & Hf).
  destruct (ensure_initialized self) as [[[]|x] self0]; simpl in *.
  - assert (Hwt0 : write_through self0) by by apply (write_through_same self).
    destruct (synthesize_initialized_state self0 text voice speed) as [->|(k & a & ->)];
      [done | by apply set_cache_write_through].
  - by apply (write_through_same self).
Qed.

(** Every entry of the memory tier has its file, after any run of requests
    to a new engine. *)
Lemma serve_write_through reqs self :
  write_through self → write_through (serve reqs self).
Proof.
  revert self. induction reqs as [|r reqs IH]; intros self Hwt; [done |].
  unfold KoreanTTSEngine.serve in *. simpl. apply IH.
  by apply synthesize_write_through.
Qed.

(** A look-up right after a store. *)
Lemma get_cached_set_cache self key audio :
  TTSConfig.cache_enabled (config self) = true →
  _get_cached (_set_cache key audio self) key =
    if bool_decide (size (_cache self) < 1000) then Some audio
    else match _cache self !! key with
         | Some older => Some older
         | None => Some audio
         end.
Proof.
  intros Hen. unfold _get_cached.
  rewrite set_cache_config, Hen. simpl.
  rewrite (cache_path_config self) by apply set_cache_config.
  rewrite set_cache_memory, set_cache_files by done.
  case_bool_decide.
  - by rewrite lookup_insert_eq.
  - destruct (_cache self !! key); [done |]. by rewrite lookup_insert_eq.
Qed.

(** The bar that joins the fields may as well be part of a field. *)
Lemma cache_content_bar speed :
  cache_content float_str "a|b" "c" speed = cache_content float_str "a" "b|c" speed.
Proof. reflexivity. Qed.

Lemma cache_key_bar self self' speed :
  _cache_key self "a|b" "c" speed = _cache_key self' "a" "b|c" speed.
Proof.
  unfold KoreanTTSEngine._cache_key. by rewrite cache_content_bar.
Qed.

(** *** Claims *)


(** The look-up returns the audio just stored in these cases and in no
    other. *)
Lemma get_cached_set_cache_iff self key audio :
  TTSConfig.cache_enabled (config self) = true →
  _get_cached (_set_cache key audio self) key = Some audio
  ↔ (size (_cache self) < 1000
     ∨ _cache self !! key = None
     ∨ _cache self !! key = Some audio).
Proof.
  intros Hen. rewrite get_cached_set_cache by done.
  case_bool_decide as Hsize.
  - split; [by left | done].
  - destruct (_cache self !! key) as [older|] eqn:Hk.
    + split; [by right; right | intros [?|[?|?]]; done].
    + split; [by right; left | done].
Qed.

(** C8, as amended: with caching enabled, the look-up of a key right after
    a store of audio under it returns that audio, from the memory tier or
    from the file, whenever the memory tier is below its bound of 1000
    entries, or does not hold the key, or holds the same audio under it. *)
Theorem get_cached_after_set_cache self key audio :
  TTSConfig.cache_enabled (config self) = true →
  (size (_cache self) < 1000
   ∨ _cache self !! key = None
   ∨ _cache self !! key = Some audio) →
  _get_cached (_set_cache key audio self) key = Some audio.
Proof.
  intros Hen Hcase. by apply get_cached_set_cache_iff.
Qed.


(** C10: the requests (["a|b"], ["c"]) and (["a"], ["b|c"]) differ, yet at
    any speed the strings hashed for them are equal and so are their keys.
    With caching enabled, once the first request has returned audio, the
    second request is answered from the cache with that same audio. *)
Theorem cache_key_collision :
  ("a|b", "c") ≠ ("a", "b|c")
  ∧ (∀ speed, cache_content float_str "a|b" "c" speed
              = cache_content float_str "a" "b|c" speed)
  ∧ (∀ self speed, _cache_key self "a|b" "c" speed = _cache_key self "a" "b|c" speed)
  ∧ (∀ self speed r1 self1,
       (∀ data frames sr, sf_read data = Return (frames, sr) → sr ≠ 0%Z) →
       TTSConfig.cache_enabled (config self) = true →
       (∀ k, _cache self !! k ≠ Some []) →
       synthesize "a|b" (Some "c") speed self = (Return r1, self1) →
       TTSResult.audio_bytes r1 ≠ [] →
       ∃ r2,
         synthesize "a" (Some "b|c") speed self1 = (Return r2, self1)
         ∧ TTSResult.audio_bytes r2 = TTSResult.audio_bytes r1
         ∧ TTSResult.text r2 = "a" ∧ TTSResult.voice r2 = "b|c"
         ∧ TTSResult.cached r2 = true ∧ TTSResult.backend r2 = "cache").
Proof.
  split; [done |]. split; [apply cache_content_bar |].
  split; [intros; apply cache_key_bar |].
  intros self speed r1 self1 Hrate Hen Hmem Hfirst Haudio.
  unfold KoreanTTSEngine.synthesize in Hfirst.
  unfold mbind, M_bind, bind in Hfirst.
  destruct (ensure_initialized self) as [[[]|x] self0] eqn:Hinit; [| done].
  apply ensure_initialized_returns in Hinit as (Hc & Hm & Hf & Hi).
  apply synthesize_initialized_returns in Hfirst. simpl in Hfirst.
  change (pick_voice self0 (Some "c")) with "c" in Hfirst.
  assert (Hready : config self1 = config self0 ∧ _initialized self1 = true
                   ∧ ∃ frames sr,
                       _get_cached self1
                         (_cache_key self0 "a|b" "c" (pick_speed self0 speed))
                         = Some (TTSResult.audio_bytes r1)
                       ∧ sf_read (TTSResult.audio_bytes r1) = Return (frames, sr)).
  { destruct Hfirst as [(Hget & _ & (frames & sr & Hread & _) & -> & _)
                       |(Hmiss & (frames & sr & Hread) & -> & _)].
    - eauto 10.
    - rewrite set_cache_config, set_cache_initialized.
      split; [done |]. split; [done |]. exists frames, sr. split; [| done].
      rewrite get_cached_set_cache by by rewrite Hc.
      case_bool_decide; [done |].
      destruct (_cache self0 !! _) as [older|] eqn:Hk; [| done].
      unfold _get_cached in Hmiss.
      change (pick_voice self0 (Some "c")) with "c" in Hmiss.
      rewrite Hc, Hen, Hk in Hmiss. simpl in Hmiss.
      destruct older; [| done]. rewrite Hm in Hk. by apply Hmem in Hk. }
  destruct Hready as (Hc1 & Hi1 & frames & sr & Hget & Hread).
  eexists. unfold KoreanTTSEngine.synthesize, mbind, M_bind, bind.
  rewrite ensure_initialized_ready by done.
  erewrite synthesize_initialized_hit; [| | done | exact Hread | by eapply Hrate].
  - simpl. repeat split.
  - rewrite <- Hget.
    change (pick_voice self1 (Some "b|c")) with "b|c".
    rewrite (cache_key_bar self0 self1).
    unfold KoreanTTSEngine.pick_speed. by rewrite Hc1.
Qed.
End CacheFacts.

(** *** The claims on concrete caches *)

Section CacheCases.
Import KoreanTTSEngine CacheExamples.

(** The key of the request ("안녕하세요", "KR", 1.0), as [hashlib] gives it. *)
Example cache_key_hello :
  _cache_key tenths_str fresh "안녕하세요" "KR" 10%Z = "73aeba55d611dc486cce06b0d50c0183".
Proof. vm_compute. reflexivity. Qed.


Lemma get_cached_after_set_cache_witness :
  TTSConfig.cache_enabled (config fresh) = true
  ∧ _get_cached (_set_cache "k" riff fresh) "k" = Some riff.
Proof.
  split; [reflexivity |].
  apply (get_cached_after_set_cache fresh "k" riff); [reflexivity |].
  left. vm_compute. lia.
Defined.

(** C8, as stated, fails: the memory tier is full and holds [wave] under
    the key ["7"]; a store of [riff] under that key writes the file only,
    and the look-up that follows returns [wave]. *)
Lemma get_cached_returns_older_audio :
  TTSConfig.cache_enabled (config full) = true
  ∧ size (_cache full) = 1000
  ∧ _cache full !! "7" = Some wave
  ∧ files (_set_cache "7" riff full) !! cache_path full "7" = Some riff
  ∧ _get_cached (_set_cache "7" riff full) "7" = Some wave
  ∧ _get_cached (_set_cache "7" riff full) "7" ≠ Some riff.
Proof.
  assert (H : _get_cached (_set_cache "7" riff full) "7" = Some wave)
    by (vm_compute; reflexivity).
  split; [vm_compute; reflexivity |].
  split; [vm_compute; reflexivity |].
  split; [vm_compute; reflexivity |].
  split; [vm_compute; reflexivity |].
  split; [exact H |]. rewrite H. discriminate.
Qed.


Lemma read_any_rate data frames sr :
  read_any data = Return (frames, sr) → sr ≠ 0%Z.
Proof. destruct data; [done |]. intros [= _ <-]. done. Qed.

Lemma cache_key_collision_witness :
  TTSConfig.cache_enabled (config fresh) = true
  ∧ (synthesize_here "a|b" (Some "c") None fresh).1
    = Return (TTSResult.mk riff 24000%Z 0%Z "a|b" "c" "edge" false 7%Z)
  ∧ ∃ r2,
      synthesize_here "a" (Some "b|c") None first_served = (Return r2, first_served)
      ∧ TTSResult.audio_bytes r2 = riff
      ∧ TTSResult.text r2 = "a" ∧ TTSResult.voice r2 = "b|c"
      ∧ TTSResult.cached r2 = true.
Proof.
  split; [reflexivity |]. split; [vm_compute; reflexivity |].
  pose proof (cache_key_collision tenths_str tenths_truthy 0%Z tenths_div read_any
                false false true backend_none backend_none backend_riff 7%Z)
    as (_ & _ & _ & Hshare).
  assert (Hfirst : synthesize_here "a|b" (Some "c") None fresh
                   = (Return (TTSResult.mk riff 24000%Z 0%Z "a|b" "c" "edge" false 7%Z),
                      first_served))
    by (vm_compute; reflexivity).
  assert (Hmem : ∀ k, _cache fresh !! k ≠ Some []) by (intros k; simpl; by rewrite lookup_empty).
  assert (Haudio : riff ≠ []) by discriminate.
  pose proof (Hshare fresh None _ first_served read_any_rate eq_refl Hmem Hfirst Haudio)
    as (r2 & Hrun & Hsame & Htext & Hvoice & Hcached & _).
  exists r2. split; [exact Hrun |]. split; [exact Hsame |].
  split; [exact Htext |]. split; [exact Hvoice | exact Hcached].
Defined.
End CacheCases.

(** * Further properties *)
(** ** More on the registry *)

Section RegistryMore.
Import Base EngineRegistry Status Registration.
Context {float Engine World : Type} `{!TTSEngineBase float Engine World}.
Implicit Types (st : State Engine World) (e eng : Engine) (es : list Engine).

Local Ltac run :=
  unfold mbind, mret, M_bind, M_ret, bind, ret, raise, get, modify; simpl.

Lemma register_engine_run e st :
  register_engine e st =
    (Return tt,
     mkState (dict_set (_engines st) (name e) e) (_active_engine st) (world st)
             (calls st) (stdout st ++ ["[Registry] Registered / 등록됨: " +:+ name e])).
Proof. reflexivity. Qed.

(** X1: after [register_engine], [get_engine] finds the new object under
    its name and every other name as before; nothing else of the registry
    changes.  In particular an active engine stays active, even when the new
    object replaces it under its name. *)
Theorem register_engine_get_engine st e :
  let st' := (register_engine e st).2 in
  (get_engine (name e) st').1 = Return (Some e)
  ∧ (∀ nm, nm ≠ name e → (get_engine nm st').1 = (get_engine nm st).1)
  ∧ _active_engine st' = _active_engine st
  ∧ calls st' = calls st
  ∧ world st' = world st
  ∧ (∀ active, _active_engine st = Some active →
               get_active_engine st' = (Return active, st')).
Proof.
  rewrite register_engine_run. simpl. unfold get_engine. run.
  split; [by rewrite dict_get_set_same |].
  split; [intros nm Hne; by rewrite dict_get_set_other |].
  repeat (split; [reflexivity |]).
  intros active Hact. unfold get_active_engine. run. by rewrite Hact.
Qed.

Lemma dict_set_keyed (d : dict Engine) e :
  Forall (λ entry, entry.1 = name entry.2) d →
  Forall (λ entry, entry.1 = name entry.2) (dict_set d (name e) e).
Proof.
  induction 1 as [|[k v] d Hk Hd IH]; simpl.
  - by repeat constructor.
  - destruct (String.eqb_spec k (name e)) as [->|Hne]; constructor; try done.
Qed.

Lemma dict_set_keys_nodup {V} (d : dict V) k v :
  NoDup (dict_keys d) → NoDup (dict_keys (dict_set d k v)).
Proof.
  intros Hnd. destruct (decide (k ∈ dict_keys d)) as [Hin|Hnin].
  - by rewrite dict_set_keys_old.
  - rewrite dict_set_new by done. unfold dict_keys in *. rewrite map_app. simpl.
    apply NoDup_app. split; [done |]. split; [| apply NoDup_singleton].
    intros x Hx Hx'. apply list_elem_of_singleton in Hx'. by subst.
Qed.

Lemma register_engine_well_keyed st e :
  well_keyed st → well_keyed (register_engine e st).2.
Proof.
  intros [Hk Hnd]. rewrite register_engine_run. split; simpl.
  - by apply dict_set_keyed.
  - by apply dict_set_keys_nodup.
Qed.

Lemma register_engine_length st e :
  length (_engines (register_engine e st).2)
  = if bool_decide (name e ∈ dict_keys (_engines st)) then length (_engines st)
    else S (length (_engines st)).
Proof.
  rewrite register_engine_run. simpl. case_bool_decide as Hin.
  - assert (Hl : length (dict_keys (dict_set (_engines st) (name e) e))
                 = length (dict_keys (_engines st))) by by rewrite dict_set_keys_old.
    unfold dict_keys in Hl. by rewrite !length_map in Hl.
  - rewrite dict_set_new by done. rewrite length_app. simpl. lia.
Qed.

(** X2: a registry built by registrations files every engine under its
    own name, holds no name twice and at most as many engines as were
    registered; when the names are distinct it lists the engines in the
    order of registration.  It starts with no active engine and has called
    no engine method. *)
Theorem registered_well_keyed es w :
  well_keyed (registered es w)
  ∧ (length (_engines (registered es w)) ≤ length es)%nat
  ∧ (NoDup (name <$> es) → dict_values (_engines (registered es w)) = es)
  ∧ _active_engine (registered es w) = None
  ∧ calls (registered es w) = [].
Proof.
  unfold registered.
  assert (Hgen : ∀ st,
    well_keyed st →
    let st' := foldl (λ st e, (register_engine e st).2) st es in
    well_keyed st'
    ∧ (length (_engines st') ≤ length (_engines st) + length es)%nat
    ∧ (NoDup (name <$> es) → (∀ e, e ∈ es → name e ∉ dict_keys (_engines st)) →
       dict_values (_engines st') = dict_values (_engines st) ++ es)
    ∧ _active_engine st' = _active_engine st
    ∧ calls st' = calls st).
  { induction es as [|e es IH]; intros st Hwk; cbn [foldl length]; cbv zeta.
    - split; [done |]. split; [lia |]. split; [by rewrite app_nil_r | done].
    - destruct (IH (register_engine e st).2) as (H1 & H2 & H3 & H4 & H5);
        [by apply register_engine_well_keyed |].
      split; [exact H1 |]. split.
      { etrans; [exact H2 |]. rewrite register_engine_length.
        case_bool_decide; lia. }
      split; [| by rewrite H4, H5, register_engine_run].
      intros Hnd Hfresh. apply NoDup_cons in Hnd as [Hne Hnd].
      rewrite H3; [| done |].
      + rewrite register_engine_last by (apply Hfresh; left).
        by rewrite <- app_assoc.
      + intros e' He'. rewrite register_engine_run. simpl.
        rewrite dict_set_new by (apply Hfresh; left).
        unfold dict_keys. rewrite map_app. simpl.
        rewrite elem_of_app, list_elem_of_singleton. intros [Hin|Heq].
        * by apply (Hfresh e'); [right |].
        * apply Hne. rewrite <- Heq. by apply list_elem_of_fmap_2. }
  destruct (Hgen (init w)) as (H1 & H2 & H3 & H4 & H5).
  { split; simpl; [constructor | apply NoDup_nil_2]. }
  split; [exact H1 |]. split; [exact H2 |]. split; [| done].
  intros Hnd. rewrite H3; [done | done |]. intros e _. apply not_elem_of_nil.
Qed.

Lemma set_active_engine_true st nm st1 :
  set_active_engine nm st = (Return true, st1) →
  ∃ e, dict_get (_engines st) nm = Some e
       ∧ (check_available e (world st)).1.1 = true
       ∧ st1 = mkState (_engines st) (Some e) (check_available e (world st)).2
                       (calls st ++ [(e, CheckAvailable)]) (stdout st).
Proof.
  unfold set_active_engine. run.
  destruct (dict_get (_engines st) nm) as [e|]; [| done].
  rewrite call_check_available_run.
  destruct (check_available e (world st)) as [[ok msg] w] eqn:E. simpl.
  destruct ok; simpl; [| done]. intros [= <-]. exists e.
  rewrite E. split; [reflexivity |]. split; reflexivity.
Qed.

(** X3: when [set_active_engine] returns [True], the engine registered
    under that name answered available, and the next [get_active_engine]
    returns it without calling any engine method. *)
Theorem set_active_engine_then_get st nm st1 :
  set_active_engine nm st = (Return true, st1) →
  ∃ e, dict_get (_engines st) nm = Some e
       ∧ (check_available e (world st)).1.1 = true
       ∧ get_active_engine st1 = (Return e, st1)
       ∧ calls st1 = calls st ++ [(e, CheckAvailable)].
Proof.
  intros Hset. apply set_active_engine_true in Hset as (e & Hget & Hok & ->).
  exists e. split; [done |]. split; [done |]. split; [| done].
  unfold get_active_engine. by run.
Qed.

Lemma head_sorted_least {A} (key : A → Z) (l : list A) b :
  head (sorted key l) = Some b →
  b ∈ l ∧ ∀ x : A, x ∈ l → (key b ≤ key x)%Z.
Proof.
  intros Hhead.
  pose proof (sorted_sorted key l) as Hs. pose proof (sorted_perm key l) as Hp.
  destruct (sorted key l) as [|x l'] eqn:E; [done |].
  injection Hhead as ->. split.
  - rewrite <- Hp. by left.
  - intros y He. rewrite <- Hp in He.
    apply StronglySorted_inv in Hs as [_ Hall].
    apply elem_of_cons in He as [->|He]; [lia |].
    rewrite Forall_forall in Hall. by apply Hall.
Qed.


(** X5: the engine [get_active_engine] returns is the active engine
    afterwards, so a second call returns it again and changes nothing; when
    none was set before, the engine returned answered available and has the
    highest priority among the available ones. *)
Theorem get_active_engine_caches st e st1 :
  get_active_engine st = (Return e, st1) →
  _active_engine st1 = Some e
  ∧ get_active_engine st1 = (Return e, st1)
  ∧ _engines st1 = _engines st
  ∧ (_active_engine st = None →
     e ∈ available_now st
     ∧ ∀ e', e' ∈ available_now st → (priority e' ≤ priority e)%Z).
Proof.
  intros Hrun. destruct (_active_engine st) as [a|] eqn:Hact.
  - unfold get_active_engine in Hrun. revert Hrun. run. rewrite Hact.
    intros [= <- <-]. split; [done |]. split; [| done].
    unfold get_active_engine. run. by rewrite Hact.
  - rewrite get_active_engine_selects in Hrun by done.
    destruct (sorted _ (available_now st)) as [|b l'] eqn:E; [done |].
    injection Hrun as <- <-. split; [done |]. split; [by unfold get_active_engine; run |].
    split; [done |]. intros _.
    destruct (head_sorted_least (λ e, - priority e)%Z (available_now st) b) as [Hin Hmax];
      [by rewrite E |].
    split; [done |]. intros e' He'. specialize (Hmax e' He'). simpl in Hmax. lia.
Qed.

(** X6: [synthesize] with the name of an engine that is not registered
    raises [ValueError] with that name, and leaves the registry as it was:
    no engine method is called. *)
Theorem synthesize_unknown_engine st text voice speed nm :
  nm ≠ "" → dict_get (_engines st) nm = None →
  synthesize text voice speed (Some nm) st
  = (Raise (ValueError ("Unknown engine / 알 수 없는 엔진: " +:+ nm)), st).
Proof.
  intros Hnm Hget. unfold synthesize, resolve, get_engine. run.
  destruct nm as [|c nm]; [done |]. simpl. by rewrite Hget.
Qed.

Lemma synthesize_named_run st text voice speed nm eng :
  nm ≠ "" → dict_get (_engines st) nm = Some eng →
  synthesize text voice speed (Some nm) st =
    if _initialized eng (world st) then
      ((Base.synthesize eng text voice speed (world st)).1,
       mkState (_engines st) (_active_engine st)
               (Base.synthesize eng text voice speed (world st)).2
               (calls st ++ [(eng, Synthesize)]) (stdout st))
    else
      match initialize eng (world st) with
      | (Return _, w) =>
          ((Base.synthesize eng text voice speed w).1,
           mkState (_engines st) (_active_engine st)
                   (Base.synthesize eng text voice speed w).2
                   (calls st ++ [(eng, Initialize); (eng, Synthesize)]) (stdout st))
      | (Raise x, w) =>
          (Raise x,
           mkState (_engines st) (_active_engine st) w
                   (calls st ++ [(eng, Initialize)]) (stdout st))
      end.
Proof.
  intros Hnm Hget. unfold synthesize.
  unfold mbind, M_bind, bind. rewrite (resolve_named _ _ _ Hnm Hget).
  rewrite ensure_initialized_run.
  destruct (_initialized eng (world st)).
  - by rewrite call_synthesize_run.
  - destruct (initialize eng (world st)) as [[ok|x] w]; [| done].
    rewrite call_synthesize_run. simpl. by rewrite <- app_assoc.
Qed.

(** X7: [synthesize] with the name of a registered engine uses that
    engine without any availability check and without reading or changing
    the active engine.  It calls [synthesize] only when the engine is
    initialized, [initialize] then [synthesize] when it is not, and only
    [initialize] when that raises, in which case the exception is the
    outcome. *)
Theorem synthesize_named_engine st text voice speed nm eng :
  nm ≠ "" → dict_get (_engines st) nm = Some eng →
  let out := synthesize text voice speed (Some nm) st in
  _active_engine out.2 = _active_engine st
  ∧ _engines out.2 = _engines st
  ∧ (if _initialized eng (world st) then
       out.1 = (Base.synthesize eng text voice speed (world st)).1
       ∧ calls out.2 = calls st ++ [(eng, Synthesize)]
     else
       match initialize eng (world st) with
       | (Return _, w) =>
           out.1 = (Base.synthesize eng text voice speed w).1
           ∧ calls out.2 = calls st ++ [(eng, Initialize); (eng, Synthesize)]
       | (Raise x, _) =>
           out.1 = Raise x ∧ calls out.2 = calls st ++ [(eng, Initialize)]
       end).
Proof.
  intros Hnm Hget out. subst out. rewrite (synthesize_named_run _ _ _ _ _ _ Hnm Hget).
  destruct (_initialized eng (world st)); [done |].
  by destruct (initialize eng (world st)) as [[ok|x] w].
Qed.

Lemma cleanup_each_run es st :
  let out := cleanup_each es st in
  _engines out.2 = _engines st
  ∧ _active_engine out.2 = _active_engine st
  ∧ match out.1 with
    | Return _ => calls out.2 = calls st ++ cleaned es
    | Raise _ => ∃ n, n < length es ∧ calls out.2 = calls st ++ cleaned (take (S n) es)
    end.
Proof.
  revert st. induction es as [|e es IH]; intros st; simpl.
  - run. by rewrite app_nil_r.
  - unfold mbind, M_bind, bind, call_cleanup, call.
    destruct (Base.cleanup e (world st)) as [[[]|x] w].
    + specialize (IH (mkState (_engines st) (_active_engine st) w
                              (calls st ++ [(e, Cleanup)]) (stdout st))).
      simpl in IH. destruct IH as (H1 & H2 & H3).
      split; [done |]. split; [done |].
      destruct (cleanup_each es _).1.
      * by rewrite H3, <- app_assoc.
      * destruct H3 as (n & Hn & H3). exists (S n). split; [lia |].
        by rewrite H3, <- app_assoc.
    + simpl. split; [done |]. split; [done |]. exists 0. split; [lia |]. by rewrite take_0.
Qed.

(** X8: [cleanup] keeps the registered engines.  When no engine's
    [cleanup] raises, every engine is cleaned up, in dict order, and the
    active engine is cleared; when one raises, the engines after it are not
    cleaned up and the active engine stays set. *)
Theorem cleanup_outcome st :
  let out := EngineRegistry.cleanup st in
  _engines out.2 = _engines st
  ∧ match out.1 with
    | Return _ =>
        _active_engine out.2 = None
        ∧ calls out.2 = calls st ++ cleaned (dict_values (_engines st))
    | Raise _ =>
        _active_engine out.2 = _active_engine st
        ∧ ∃ n, n < length (_engines st)
               ∧ calls out.2 = calls st ++ cleaned (take (S n) (dict_values (_engines st)))
    end.
Proof.
  unfold EngineRegistry.cleanup. run.
  pose proof (cleanup_each_run (dict_values (_engines st)) st) as (H1 & H2 & H3).
  destruct (cleanup_each (dict_values (_engines st)) st) as [[[]|x] st1]; simpl in *.
  - split; [done |]. split; [done |]. exact H3.
  - split; [done |]. split; [done |]. destruct H3 as (n & Hn & H3).
    exists n. unfold dict_values in Hn. rewrite length_map in Hn. done.
Qed.
End RegistryMore.

(** ** Status, voices and the HTTP handlers *)

Section StatusFacts.
Import Base EngineRegistry Status.
Context {float Engine World : Type} `{!TTSEngineBase float Engine World}.
Context `{!EqDecision Engine}.
Context (display_name version : Engine → string)
        (languages : Engine → list string)
        (get_voices : Engine → list VoiceInfo).
Implicit Types (st : State Engine World) (e eng : Engine) (es : list Engine).

Local Abbreviation get_info := (get_info display_name version languages).
Local Abbreviation collect_info := (collect_info display_name version languages).
Local Abbreviation get_status := (get_status display_name version languages).
Local Abbreviation get_all_voices := (get_all_voices get_voices).

Local Ltac run :=
  unfold mbind, mret, M_bind, M_ret, bind, ret, raise, get, modify; simpl.

Lemma selected_sublist es (bs : list bool) :
  (filter (λ p : Engine * bool, p.2 = true) (zip es bs)).*1 `sublist_of` es.
Proof.
  revert bs. induction es as [|e es IH]; intros [|b bs]; simpl;
    try apply sublist_nil_l.
  rewrite filter_cons. case_decide; simpl.
  - apply sublist_skip, IH.
  - apply sublist_cons, IH.
Qed.

Lemma available_now_sublist st :
  available_now st `sublist_of` dict_values (_engines st).
Proof. apply selected_sublist. Qed.

Lemma sorted_length {A} (key : A → Z) (l : list A) : length (sorted key l) = length l.
Proof. apply Permutation_length, sorted_perm. Qed.

Lemma collect_info_run es st :
  ∃ infos,
    collect_info es st =
      (Return infos,
       mkState (_engines st) (_active_engine st) (after_checks es (world st))
               (calls st ++ checked es) (stdout st))
    ∧ Forall2 (λ e info,
                 info_name info = name e ∧ info_priority info = priority e
                 ∧ info_is_active info
                   = Some (bool_decide (Some e = _active_engine st))) es infos
    ∧ info_available <$> infos = answers es (world st).
Proof.
  revert st. induction es as [|e es IH]; intros st.
  - exists []. destruct st. simpl. run. by rewrite app_nil_r.
  - simpl. unfold Status.get_info. run. rewrite call_check_available_run.
    destruct (check_available e (world st)) as [[b msg] w] eqn:E. simpl.
    destruct (IH (mkState (_engines st) (_active_engine st) w
                          (calls st ++ [(e, CheckAvailable)]) (stdout st)))
      as (infos & Hrun & Hall & Hav).
    simpl in *. rewrite Hrun. simpl. eexists. split.
    + rewrite <- app_assoc. reflexivity.
    + split; [constructor; [done | exact Hall] |].
      rewrite fmap_cons. simpl. f_equal. exact Hav.
Qed.

Lemma get_status_run st :
  ∃ infos,
    get_status st =
      (Return (mkStatusReport (length (_engines st))
                              (length (available_now (polled st)))
                              (name <$> _active_engine st) infos),
       polled (polled st))
    ∧ Forall2 (λ e info,
                 info_name info = name e ∧ info_priority info = priority e
                 ∧ info_is_active info
                   = Some (bool_decide (Some e = _active_engine st)))
              (dict_values (_engines st)) infos
    ∧ info_available <$> infos = answers (dict_values (_engines st)) (world st).
Proof.
  destruct (collect_info_run (dict_values (_engines st)) st) as (infos & Hrun & Hall & Hav).
  exists infos. split; [| done].
  unfold Status.get_status. run. rewrite Hrun. simpl.
  rewrite get_available_engines_run. simpl. by rewrite sorted_length.
Qed.

(** X13: [get_status] reports the number of registered engines, the
    number of engines that answer available in a second round of checks
    (never more than the total), the name of the active engine, and one
    entry per registered engine, in dict order, flagged active exactly for
    the active object and carrying the answers of the first round.  It
    calls [check_available] twice on every engine and nothing else, and
    leaves the active engine as it was. *)
Theorem get_status_report st :
  ∃ report,
    get_status st = (Return report, polled (polled st))
    ∧ total_engines report = length (_engines st)
    ∧ available_engines report = length (available_now (polled st))
    ∧ (available_engines report ≤ total_engines report)%nat
    ∧ active_engine report = name <$> _active_engine st
    ∧ Forall2 (λ e info,
                 info_name info = name e ∧ info_priority info = priority e
                 ∧ info_is_active info
                   = Some (bool_decide (Some e = _active_engine st)))
              (dict_values (_engines st)) (engines report)
    ∧ info_available <$> engines report
      = answers (dict_values (_engines st)) (world st)
    ∧ calls (polled (polled st))
      = calls st ++ checked (dict_values (_engines st))
                 ++ checked (dict_values (_engines st))
    ∧ _active_engine (polled (polled st)) = _active_engine st.
Proof.
  destruct (get_status_run st) as (infos & Hrun & Hall & Hav).
  eexists. split; [exact Hrun |]. simpl.
  split; [done |]. split; [done |].
  split.
  { pose proof (sublist_length _ _ (available_now_sublist (polled st))) as Hle.
    simpl in Hle. unfold dict_values in Hle. by rewrite length_map in Hle. }
  split; [done |]. split; [done |]. split; [done |].
  split; [by rewrite <- app_assoc | done].
Qed.

Lemma well_keyed_names st :
  well_keyed st → NoDup (name <$> dict_values (_engines st)).
Proof.
  intros [Hk Hnd].
  assert (Heq : name <$> dict_values (_engines st) = dict_keys (_engines st)).
  { clear Hnd. unfold dict_values, dict_keys.
    induction Hk as [|[k e] d Hke Hd IH]; simpl; [done |]. simpl in Hke.
    by rewrite Hke, <- IH. }
  by rewrite Heq.
Qed.

Lemma sublist_map {A B} (f : A → B) (l1 l2 : list A) :
  l1 `sublist_of` l2 → f <$> l1 `sublist_of` f <$> l2.
Proof. induction 1; simpl; by constructor. Qed.

Lemma voices_of_distinct (l : list Engine) (d : dict (list VoiceInfo)) :
  NoDup (name <$> l) → (∀ e, e ∈ l → name e ∉ dict_keys d) →
  foldl (λ voices engine, dict_set voices (name engine) (get_voices engine)) d l
  = d ++ map (λ e, (name e, get_voices e)) l.
Proof.
  revert d. induction l as [|e l IH]; intros d Hnd Hfresh; simpl.
  - by rewrite app_nil_r.
  - apply NoDup_cons in Hnd as [Hne Hnd].
    rewrite dict_set_new by (apply Hfresh; left).
    rewrite IH; [by rewrite <- app_assoc | done |].
    intros e' He'. unfold dict_keys. rewrite map_app. simpl.
    rewrite elem_of_app, list_elem_of_singleton. intros [Hin|Heq].
    + by apply (Hfresh e'); [right |].
    + apply Hne. rewrite <- Heq. by apply list_elem_of_fmap_2.
Qed.

(** X14: in a registry whose engines are filed under their own names,
    [get_all_voices] lists the voices of exactly the engines that answer
    available, one entry per engine name, in order of descending priority;
    it changes nothing but the call log of the availability checks. *)
Theorem get_all_voices_by_priority st :
  well_keyed st →
  get_all_voices st =
    (Return (map (λ e, (name e, get_voices e))
                 (sorted (λ e, - priority e)%Z (available_now st))),
     polled st).
Proof.
  intros Hwk. unfold Status.get_all_voices. run.
  rewrite get_available_engines_run. simpl. f_equal. f_equal.
  rewrite voices_of_distinct; [done | | intros e _; apply not_elem_of_nil].
  rewrite (sorted_perm (λ e : Engine, (- priority e)%Z)).
  eapply sublist_NoDup; [by apply well_keyed_names |].
  apply sublist_map, available_now_sublist.
Qed.
End StatusFacts.

Section APIFacts.
Import Base EngineRegistry.
Context {float Engine World : Type} `{!TTSEngineBase float Engine World}.
Context `{!EqDecision Engine}.
Context (display_name version : Engine → string)
        (languages : Engine → list string).
Context (float_str : float → string)
        (is_runtime_error : string → bool)
        (b64encode : list byte → string)
        (processing_time : float)
        (unix_time : string)
        (now : string).
Implicit Types (st : State Engine World) (request : API.TTSRequest float).

Local Abbreviation tts := (API.synthesize float_str is_runtime_error processing_time unix_time).
Local Abbreviation tts_json := (API.synthesize_json b64encode processing_time).
Local Abbreviation health := (API.health display_name version languages now).

Local Ltac run :=
  unfold mbind, mret, M_bind, M_ret, bind, ret, raise, get, modify; simpl.

Lemma resolve_with_active st engine a :
  _active_engine st = Some a → ∃ r, resolve engine st = (r, st).
Proof.
  intros Hact. unfold resolve, get_engine, get_active_engine. run.
  destruct (truthy_opt_str engine).
  - destruct (dict_get _ _); by eexists.
  - rewrite Hact. by eexists.
Qed.

Lemma synthesize_keeps_active st text voice speed engine a :
  _active_engine st = Some a →
  _active_engine (synthesize text voice speed engine st).2 = Some a.
Proof.
  intros Hact. unfold synthesize. unfold mbind, M_bind, bind.
  destruct (resolve_with_active st engine a Hact) as [[eng|x] ->]; [| done].
  rewrite ensure_initialized_run.
  destruct (_initialized eng (world st)).
  - by rewrite call_synthesize_run.
  - destruct (initialize eng (world st)) as [[ok|x] w]; [| done].
    by rewrite call_synthesize_run.
Qed.



(** X17: [GET /health] says "healthy" exactly when some registered
    engine answers available (in the second round of checks that
    [get_status] makes) and "degraded" exactly when none does; it reports
    the active engine and does not change it. *)
Theorem health_reply st :
  ∃ reply,
    health st = (Return reply, polled (polled st))
    ∧ (API.status reply = "healthy" ↔ available_now (polled st) ≠ [])
    ∧ (API.status reply = "degraded" ↔ available_now (polled st) = [])
    ∧ API.health_available_engines reply = length (available_now (polled st))
    ∧ API.health_active_engine reply = name <$> _active_engine st
    ∧ _active_engine (polled (polled st)) = _active_engine st.
Proof.
  destruct (get_status_run display_name version languages st) as (infos & Hrun & _).
  unfold API.health. unfold mbind, M_bind, bind. rewrite Hrun. run.
  eexists. split; [reflexivity |]. simpl.
  split; [| split; [| done]].
  - destruct (available_now (polled st)); simpl; split; done.
  - destruct (available_now (polled st)); simpl; split; done.
Qed.
End APIFacts.

(** ** The two engines of the repository *)

Section BuiltinFacts.
Import Base EngineRegistry Registration Engines.
Context {float : Type}.
Context (MeloTTS : Outcome Z)
        (melo_tts : string → string → float → Outcome (list byte * Z * float))
        (edge_tts : string → string → float → Outcome (list byte * float)).

Local Abbreviation here := (builtin MeloTTS melo_tts edge_tts).
Local Abbreviation registered := (@registered float Engine World here).
Local Abbreviation get_active_engine := (@get_active_engine float Engine World here).
Local Abbreviation initialize := (@initialize float Engine World here).
Local Abbreviation check_available := (@check_available float Engine World here).
Local Abbreviation _initialized := (@_initialized float Engine World here).
Local Abbreviation synthesize := (@EngineRegistry.synthesize float Engine World here).
Local Abbreviation cleanup_each := (@cleanup_each float Engine World here).
Local Abbreviation cleanup := (@EngineRegistry.cleanup float Engine World here).

Implicit Types (st : State Engine World) (e : Engine) (w : World).

Local Ltac run :=
  unfold mbind, mret, M_bind, M_ret, bind, ret, raise, get, modify; simpl.

(** X9: with the two engines of the repository registered, in either
    order, and no active engine, [get_active_engine] returns the Melo engine
    whenever [melotts] is installed, the Edge engine when only [edge-tts]
    is, and raises when neither is. *)
Theorem builtin_selection es w :
  es = [MeloEngine; EdgeEngine] ∨ es = [EdgeEngine; MeloEngine] →
  (get_active_engine (registered es w)).1 =
    if MELO_AVAILABLE w then Return MeloEngine
    else if EDGE_AVAILABLE w then Return EdgeEngine
    else Raise (RuntimeError no_engine_message).
Proof.
  intros Hes. rewrite get_active_engine_selects by (by destruct Hes as [->| ->]).
  destruct w as [melo edge mi ms mm mr ei es'].
  destruct Hes as [->| ->]; destruct melo, edge; reflexivity.
Qed.

Lemma builtin_initialize_run e w :
  initialize e w =
    match e with
    | MeloEngine =>
        if MELO_AVAILABLE w then
          match MeloTTS with
          | Return rate => (Return true, set_melo true (melo_status w) true rate w)
          | Raise _ =>
              (Return false,
               set_melo (melo_initialized w) ERROR (melo_model w) (melo_sample_rate w) w)
          end
        else (Return false, w)
    | EdgeEngine =>
        if EDGE_AVAILABLE w then (Return true, set_edge true (edge_status w) w)
        else (Return false, w)
    end.
Proof.
  destruct e; simpl; unfold melo_initialize, edge_initialize; run.
  - destruct (MELO_AVAILABLE w); simpl; [| done]. by destruct MeloTTS.
  - by destruct (EDGE_AVAILABLE w).
Qed.

(** X10: [initialize] of a repository engine never raises.  It returns
    [True] exactly when the package is installed and, for Melo, the model
    loads; it then marks the engine initialized and otherwise leaves the
    flag as it was.  It does not touch the other engine, nor what
    [check_available] answers. *)
Theorem builtin_initialize e w :
  ∃ ok w',
    initialize e w = (Return ok, w')
    ∧ ok = match e with
           | MeloEngine =>
               MELO_AVAILABLE w && match MeloTTS with Return _ => true | Raise _ => false end
           | EdgeEngine => EDGE_AVAILABLE w
           end
    ∧ _initialized e w' = ok || _initialized e w
    ∧ (∀ e', e' ≠ e → _initialized e' w' = _initialized e' w)
    ∧ (check_available e w').1.1 = (check_available e w).1.1.
Proof.
  rewrite builtin_initialize_run. destruct e.
  - destruct (MELO_AVAILABLE w) eqn:Hm; [destruct MeloTTS |]; eexists _, _;
      (split; [reflexivity |]); simpl; unfold melo_check_available; simpl; rewrite ?Hm;
      (split; [reflexivity |]); (split; [reflexivity |]);
      (split; [by intros [] |]); reflexivity.
  - destruct (EDGE_AVAILABLE w) eqn:He; eexists _, _;
      (split; [reflexivity |]); simpl; unfold edge_check_available; simpl; rewrite ?He;
      (split; [reflexivity |]); (split; [reflexivity |]);
      (split; [by intros [] |]); reflexivity.
Qed.

(** A request that a repository engine answers leaves it initialized. *)
Lemma builtin_synthesize_initializes e text voice speed w r w' :
  @Base.synthesize float Engine World here e text voice speed w = (Return r, w') → _initialized e w' = true.
Proof.
  destruct e; simpl; unfold melo_synthesize, edge_synthesize,
    melo_initialize, edge_initialize; run.
  - destruct (melo_initialized w) eqn:Hi; simpl.
    + destruct (melo_tts text voice speed) as [[[? ?] ?]|?]; [| done].
      by intros [= _ <-].
    + destruct (MELO_AVAILABLE w); simpl; [| done].
      destruct MeloTTS; simpl; [| done].
      destruct (melo_tts text voice speed) as [[[? ?] ?]|?]; [| done].
      by intros [= _ <-].
  - destruct (edge_initialized w) eqn:Hi; simpl.
    + destruct (edge_tts text _ speed) as [[? ?]|?]; [| done].
      by intros [= _ <-].
    + destruct (EDGE_AVAILABLE w); simpl; [| done].
      destruct (edge_tts text _ speed) as [[? ?]|?]; [| done].
      by intros [= _ <-].
Qed.


Lemma builtin_cleanup_each es st :
  cleanup_each es st =
    (Return tt,
     mkState (_engines st) (_active_engine st)
             (foldl (λ w e, (@Base.cleanup float Engine World here e w).2) (world st) es)
             (calls st ++ cleaned es) (stdout st)).
Proof.
  revert st. induction es as [|e es IH]; intros st; simpl.
  - destruct st. run. unfold cleaned. simpl. by rewrite app_nil_r.
  - destruct e; unfold mbind, M_bind, bind, call_cleanup, call; simpl;
      rewrite IH; simpl; unfold cleaned; simpl; by rewrite <- app_assoc.
Qed.

(** X12: with repository engines, [cleanup] of the registry never
    raises and clears the active engine; it leaves the Melo engine
    uninitialized, while the Edge engine keeps its flag. *)
Theorem builtin_cleanup st :
  ∃ st',
    cleanup st = (Return tt, st')
    ∧ _active_engine st' = None
    ∧ (MeloEngine ∈ dict_values (_engines st) → melo_initialized (world st') = false)
    ∧ edge_initialized (world st') = edge_initialized (world st).
Proof.
  unfold EngineRegistry.cleanup. run. rewrite builtin_cleanup_each. simpl.
  eexists. split; [reflexivity |]. simpl. split; [done |].
  generalize (world st) as w.
  assert (Hgen : ∀ es w,
    ((melo_initialized w = false ∨ MeloEngine ∈ es) →
     melo_initialized (foldl (λ w e, (@Base.cleanup float Engine World here e w).2) w es) = false)
    ∧ edge_initialized (foldl (λ w e, (@Base.cleanup float Engine World here e w).2) w es) = edge_initialized w).
  { induction es as [|e es IH]; intros w.
    - split; [| done]. intros [H|H]; [done | by apply elem_of_nil in H].
    - cbn [foldl]. destruct (IH (@Base.cleanup float Engine World here e w).2) as [IH1 IH2]. split.
      + intros [H|H]; apply IH1.
        * left. by destruct e.
        * apply elem_of_cons in H as [<-|H]; [by left | by right].
      + rewrite IH2. by destruct e. }
  intros w. destruct (Hgen (dict_values (_engines st)) w) as [H1 H2].
  split; [intros Hin; apply H1; by right | exact H2].
Qed.
End BuiltinFacts.

(** ** More on the server engine *)

Section ServerMore.
Import KoreanTTSEngine.
Context {float : Type}.
Context (float_str : float → string)
        (float_truthy : float → bool)
        (float_zero : float)
        (float_div : Z → Z → float)
        (sf_read : list byte → Outcome (Z * Z))
        (import_melo import_cosyvoice import_edge : bool)
        (_synthesize_melo _synthesize_cosyvoice _synthesize_edge :
           string → string → float → Outcome (list byte * Z))
        (elapsed_ms : float).
Implicit Types (self : Self float) (key text : string) (audio : list byte).

Local Abbreviation _cache_key := (_cache_key float_str).
Local Abbreviation pick_speed := (pick_speed float_truthy).
Local Abbreviation initialize := (initialize import_melo import_cosyvoice import_edge).
Local Abbreviation ensure_initialized :=
  (ensure_initialized import_melo import_cosyvoice import_edge).
Local Abbreviation synthesize_initialized :=
  (synthesize_initialized float_str float_truthy float_zero float_div sf_read
              _synthesize_melo _synthesize_cosyvoice _synthesize_edge elapsed_ms).
Local Abbreviation synthesize :=
  (synthesize float_str float_truthy float_zero float_div sf_read
              import_melo import_cosyvoice import_edge
              _synthesize_melo _synthesize_cosyvoice _synthesize_edge elapsed_ms).
Local Abbreviation serve :=
  (serve float_str float_truthy float_zero float_div sf_read
         import_melo import_cosyvoice import_edge
         _synthesize_melo _synthesize_cosyvoice _synthesize_edge elapsed_ms).

Local Ltac run :=
  unfold mbind, mret, M_bind, M_ret, bind, ret, raise, get, modify, lift; simpl.

Local Abbreviation imported := (Backends.imported import_melo import_cosyvoice import_edge).

Lemma initialize_exact self :
  initialize self =
    (Return (bool_decide (0 < length (_available_backends self ++ imported))),
     mkSelf (config self)
            (bool_decide (0 < length (_available_backends self ++ imported)))
            (_available_backends self ++ imported) (_cache self) (files self)).
Proof.
  unfold KoreanTTSEngine.initialize, add_backend, set_initialized, Backends.imported. run.
  destruct import_melo, import_cosyvoice, import_edge; simpl;
    rewrite <- ?app_assoc, ?app_nil_r; reflexivity.
Qed.

(** X18: [initialize] appends the backends whose import succeeds, in the
    order melo, cosyvoice, edge, and returns the [_initialized] flag it
    sets; on a new engine that is [True] exactly when some import succeeds.
    It is not idempotent: a second call appends the same backends again.
    The cache is not touched. *)
Theorem initialize_backends self :
  let out := initialize self in
  _available_backends out.2 = _available_backends self ++ imported
  ∧ out.1 = Return (_initialized out.2)
  ∧ (_available_backends self = [] →
     _initialized out.2 = import_melo || import_cosyvoice || import_edge)
  ∧ _available_backends (initialize out.2).2
    = _available_backends self ++ imported ++ imported
  ∧ _cache out.2 = _cache self ∧ files out.2 = files self.
Proof.
  cbv zeta. rewrite !initialize_exact. simpl.
  split; [done |]. split; [done |]. split; [| by rewrite <- app_assoc].
  intros ->. unfold Backends.imported.
  by destruct import_melo, import_cosyvoice, import_edge.
Qed.

Lemma get_backend_names self b :
  (get_backend self).1 = Return b → b = "melo" ∨ b = "cosyvoice" ∨ b = "edge".
Proof.
  clear -self. unfold get_backend. run.
  destruct (TTSConfig.backend (config self)); simpl;
    repeat case_bool_decide; simpl; naive_solver.
Qed.

(** X19: [get_backend] changes nothing.  What it returns is an available
    backend, one of melo, cosyvoice and edge: the configured one, or under
    [AUTO] the first available in that order.  It raises when the configured
    backend is not available, even if others are, and under [AUTO] when
    none of the three is. *)
Theorem get_backend_available self :
  (get_backend self).2 = self
  ∧ match (get_backend self).1 with
    | Return b =>
        b ∈ _available_backends self
        ∧ (b = "melo" ∨ b = "cosyvoice" ∨ b = "edge")
        ∧ match TTSConfig.backend (config self) with
          | AUTO =>
              (b ≠ "melo" → "melo" ∉ _available_backends self)
              ∧ (b = "edge" → "cosyvoice" ∉ _available_backends self)
          | chosen => b = value chosen
          end
    | Raise x =>
        match TTSConfig.backend (config self) with
        | AUTO =>
            x = RuntimeError "No TTS backend available / TTS 백엔드 없음"
            ∧ ("melo" ∉ _available_backends self)
            ∧ ("cosyvoice" ∉ _available_backends self)
            ∧ ("edge" ∉ _available_backends self)
        | chosen =>
            x = RuntimeError ("Backend '" +:+ value chosen +:+ "' not available / 사용 불가")
            ∧ value chosen ∉ _available_backends self
        end
    end.
Proof.
  clear -self. split; [apply get_backend_state |].
  unfold get_backend. run.
  destruct (TTSConfig.backend (config self)); simpl;
    repeat case_bool_decide; simpl; naive_solver.
Qed.

(** What a request can do to the engine, whatever its outcome. *)
Lemma synthesize_state self text voice speed :
  let out := synthesize text voice speed self in
  config out.2 = config self
  ∧ ((_cache out.2 = _cache self ∧ files out.2 = files self)
     ∨ ∃ key audio self0,
         config self0 = config self ∧ _cache self0 = _cache self
         ∧ files self0 = files self ∧ out.2 = _set_cache key audio self0).
Proof.
  cbv zeta. unfold KoreanTTSEngine.synthesize. unfold mbind, M_bind, bind.
  pose proof (ensure_initialized_state import_melo import_cosyvoice import_edge self)
    as (Hc & Hm & Hf).
  destruct (ensure_initialized self) as [[[]|x] self0]; simpl in *.
  - destruct (synthesize_initialized_state float_str float_truthy float_zero float_div
                sf_read _synthesize_melo _synthesize_cosyvoice _synthesize_edge
                elapsed_ms self0 text voice speed) as [->|(k & a & ->)].
    + split; [done |]. by left.
    + rewrite set_cache_config. split; [done |]. right. by exists k, a, self0.
  - split; [done |]. by left.
Qed.

(** X20: on an engine that is not initialized and has no backend, when
    none of the three imports succeeds, every request raises "TTS
    initialization failed" and leaves the engine exactly as it was, so every
    later request fails in the same way. *)
Theorem synthesize_without_backends self reqs text voice speed :
  import_melo = false → import_cosyvoice = false → import_edge = false →
  _initialized self = false → _available_backends self = [] →
  synthesize text voice speed self
  = (Raise (RuntimeError "TTS initialization failed / TTS 초기화 실패"), self)
  ∧ serve reqs self = self.
Proof.
  intros Hm Hc He Hi Hb.
  assert (Hone : ∀ text voice speed,
    synthesize text voice speed self
    = (Raise (RuntimeError "TTS initialization failed / TTS 초기화 실패"), self)).
  { intros t v s. unfold KoreanTTSEngine.synthesize, KoreanTTSEngine.ensure_initialized.
    unfold mbind, M_bind, bind, get at 1. rewrite Hi. cbn [negb].
    rewrite initialize_exact, Hb. unfold Backends.imported. rewrite Hm, Hc, He.
    destruct self. simpl in *. by subst. }
  split; [apply Hone |].
  unfold KoreanTTSEngine.serve. induction reqs as [|r reqs IH]; [done |].
  cbn [foldl]. by rewrite Hone.
Qed.

(** X21: with caching enabled, once a request has returned audio, the
    same request made again returns the same bytes from the cache, marked
    cached, with backend "cache" and a processing time of zero, and leaves
    the engine unchanged; no backend is consulted, since the answer is the
    same whatever the backends would do. *)
Theorem synthesize_again_from_cache self text voice speed r1 self1 :
  (∀ data frames sr, sf_read data = Return (frames, sr) → sr ≠ 0%Z) →
  TTSConfig.cache_enabled (config self) = true →
  (∀ k, _cache self !! k ≠ Some []) →
  synthesize text voice speed self = (Return r1, self1) →
  TTSResult.audio_bytes r1 ≠ [] →
  ∀ other_melo other_cosyvoice other_edge other_elapsed,
  ∃ r2,
    KoreanTTSEngine.synthesize float_str float_truthy float_zero float_div sf_read
      import_melo import_cosyvoice import_edge
      other_melo other_cosyvoice other_edge other_elapsed
      text voice speed self1 = (Return r2, self1)
    ∧ TTSResult.audio_bytes r2 = TTSResult.audio_bytes r1
    ∧ TTSResult.cached r2 = true ∧ TTSResult.backend r2 = "cache"
    ∧ TTSResult.processing_time_ms r2 = float_zero
    ∧ TTSResult.text r2 = text.
Proof.
  intros Hrate Hen Hmem Hfirst Haudio om oc oe oel.
  unfold KoreanTTSEngine.synthesize in Hfirst.
  unfold mbind, M_bind, bind in Hfirst.
  destruct (ensure_initialized self) as [[[]|x] self0] eqn:Hinit; [| done].
  apply ensure_initialized_returns in Hinit as (Hc & Hm & Hf & Hi).
  apply synthesize_initialized_returns in Hfirst. cbv zeta in Hfirst.
  set (key := _cache_key self0 text (pick_voice self0 voice) (pick_speed self0 speed)) in *.
  assert (Hready : config self1 = config self0 ∧ _initialized self1 = true
                   ∧ ∃ frames sr,
                       _get_cached self1 key = Some (TTSResult.audio_bytes r1)
                       ∧ sf_read (TTSResult.audio_bytes r1) = Return (frames, sr)).
  { destruct Hfirst as [(Hget & _ & (frames & sr & Hread & _) & -> & _)
                       |(Hmiss & (frames & sr & Hread) & -> & _)].
    - eauto 10.
    - rewrite set_cache_config, set_cache_initialized.
      split; [done |]. split; [done |]. exists frames, sr. split; [| done].
      rewrite get_cached_set_cache by by rewrite Hc.
      case_bool_decide; [done |].
      destruct (_cache self0 !! key) as [older|] eqn:Hk; [| done].
      unfold _get_cached in Hmiss. rewrite Hc, Hen, Hk in Hmiss. simpl in Hmiss.
      destruct older; [| done]. rewrite Hm in Hk. by apply Hmem in Hk. }
  destruct Hready as (Hc1 & Hi1 & frames & sr & Hget & Hread).
  eexists. unfold KoreanTTSEngine.synthesize, mbind, M_bind, bind.
  rewrite ensure_initialized_ready by done.
  erewrite synthesize_initialized_hit; [| | done | exact Hread | by eapply Hrate].
  - simpl. repeat split.
  - rewrite <- Hget. subst key.
    unfold KoreanTTSEngine.pick_voice, KoreanTTSEngine.pick_speed. by rewrite Hc1.
Qed.

(** X22: a store under a new key into a full memory tier does not enter
    the memory tier, whose size stays the same; the audio is in the file,
    and the look-up that follows returns it from there. *)
Theorem set_cache_at_capacity self key audio :
  TTSConfig.cache_enabled (config self) = true →
  ¬ size (_cache self) < 1000 →
  _cache self !! key = None →
  let self' := _set_cache key audio self in
  _cache self' !! key = None
  ∧ files self' !! cache_path self key = Some audio
  ∧ _get_cached self' key = Some audio
  ∧ size (_cache self') = size (_cache self).
Proof.
  intros Hen Hfull Hk. cbv zeta.
  assert (Hmem : _cache (_set_cache key audio self) = _cache self).
  { rewrite set_cache_memory by done. by case_bool_decide. }
  split; [by rewrite Hmem |].
  split; [rewrite set_cache_files by done; apply lookup_insert_eq |].
  split; [| by rewrite Hmem].
  rewrite get_cached_set_cache by done. case_bool_decide; [done |]. by rewrite Hk.
Qed.

Lemma synthesize_size self text voice speed :
  (size (_cache self) ≤ 1000)%nat →
  (size (_cache (synthesize text voice speed self).2) ≤ 1000)%nat.
Proof.
  intros Hle.
  destruct (synthesize_state self text voice speed) as [_ [[-> _]|(k & a & s0 & _ & Hm & _ & ->)]];
    [done |].
  apply set_cache_size. by rewrite Hm.
Qed.

(** X23: no run of requests makes the memory tier hold more than 1000
    entries, and none changes the configuration. *)
Theorem serve_memory_bound reqs self :
  (size (_cache self) ≤ 1000)%nat →
  (size (_cache (serve reqs self)) ≤ 1000)%nat
  ∧ config (serve reqs self) = config self.
Proof.
  revert self. unfold KoreanTTSEngine.serve.
  induction reqs as [|r reqs IH]; intros self Hle; [done |].
  cbn [foldl]. destruct (IH (synthesize (req_text r) (req_voice r) (req_speed r) self).2)
    as [H1 H2]; [by apply synthesize_size |].
  split; [exact H1 |]. rewrite H2.
  by destruct (synthesize_state self (req_text r) (req_voice r) (req_speed r)) as [-> _].
Qed.

(** X24: with caching disabled, a request changes neither the memory
    tier nor the files, and a result is never marked cached. *)
Theorem synthesize_cache_disabled self text voice speed :
  TTSConfig.cache_enabled (config self) = false →
  let out := synthesize text voice speed self in
  _cache out.2 = _cache self
  ∧ files out.2 = files self
  ∧ ∀ r, out.1 = Return r → TTSResult.cached r = false.
Proof.
  intros Hoff. cbv zeta.
  destruct (synthesize_state self text voice speed)
    as [_ [[Hm Hf]|(k & a & s0 & Hc & Hm & Hf & Heq)]].
  - split; [done |]. split; [done |].
    intros r Hr. unfold KoreanTTSEngine.synthesize in Hr.
    unfold mbind, M_bind, bind in Hr.
    destruct (ensure_initialized self) as [[[]|x] self0] eqn:Hinit; [| done].
    apply ensure_initialized_returns in Hinit as (Hc0 & _).
    destruct (synthesize_initialized text voice speed self0) as [o self1] eqn:Hs.
    simpl in Hr. subst o.
    apply synthesize_initialized_returns in Hs as [(Hget & _)|(_ & _ & _ & Hcached)];
      [| done].
    unfold _get_cached in Hget. by rewrite Hc0, Hoff in Hget.
  - rewrite Heq, set_cache_disabled by by rewrite Hc.
    split; [done |]. split; [done |].
    intros r Hr. unfold KoreanTTSEngine.synthesize in Hr.
    unfold mbind, M_bind, bind in Hr.
    destruct (ensure_initialized self) as [[[]|x] self0] eqn:Hinit; [| done].
    apply ensure_initialized_returns in Hinit as (Hc0 & _).
    destruct (synthesize_initialized text voice speed self0) as [o self1] eqn:Hs.
    simpl in Hr. subst o.
    apply synthesize_initialized_returns in Hs as [(Hget & _)|(_ & _ & _ & Hcached)];
      [| done].
    unfold _get_cached in Hget. by rewrite Hc0, Hoff in Hget.
Qed.

(** X25: an empty voice stands for no voice, and a speed that is false
    (zero) for no speed: the configured value is used, and a request without
    voice and speed is the request with the configured voice and speed. *)
Theorem synthesize_defaults self text voice speed :
  synthesize text (Some "") speed self = synthesize text None speed self
  ∧ (∀ s, float_truthy s = false →
          synthesize text voice (Some s) self = synthesize text voice None self)
  ∧ synthesize text None None self
    = synthesize text (Some (TTSConfig.voice (config self)))
                 (Some (TTSConfig.speed (config self))) self.
Proof.
  assert (Hsame : ∀ v1 s1 v2 s2,
    (∀ self0 : Self float, config self0 = config self →
                           pick_voice self0 v1 = pick_voice self0 v2) →
    (∀ self0 : Self float, config self0 = config self →
                           pick_speed self0 s1 = pick_speed self0 s2) →
    synthesize text v1 s1 self = synthesize text v2 s2 self).
  { intros v1 s1 v2 s2 Hv Hs. unfold KoreanTTSEngine.synthesize.
    unfold mbind, M_bind, bind.
    pose proof (ensure_initialized_state import_melo import_cosyvoice import_edge self)
      as (Hc & _).
    destruct (ensure_initialized self) as [[[]|x] self0]; [| done]. simpl in Hc.
    unfold KoreanTTSEngine.synthesize_initialized. unfold mbind, M_bind, bind, get.
    by rewrite (Hv self0 Hc), (Hs self0 Hc). }
  split; [by apply Hsame |]. split.
  - intros s Hfalse. apply Hsame; [done |]. intros self0 _.
    unfold KoreanTTSEngine.pick_speed. by rewrite Hfalse.
  - apply Hsame.
    + intros self0 Hc. unfold pick_voice. rewrite Hc.
      by destruct (truthy_opt_str (Some (TTSConfig.voice (config self)))).
    + intros self0 Hc. unfold KoreanTTSEngine.pick_speed. rewrite Hc.
      by destruct (float_truthy (TTSConfig.speed (config self))).
Qed.

Lemma synthesize_files self text voice speed p :
  let out := synthesize text voice speed self in
  (is_Some (files self !! p) → is_Some (files out.2 !! p))
  ∧ ((∀ k, p ≠ cache_path self k) → files out.2 !! p = files self !! p).
Proof.
  cbv zeta.
  destruct (synthesize_state self text voice speed)
    as [_ [[_ ->]|(k & a & s0 & Hc & _ & Hf & ->)]]; [done |].
  destruct (TTSConfig.cache_enabled (config s0)) eqn:Hen.
  - rewrite set_cache_files by done. rewrite Hf, (cache_path_config self) by done.
    split.
    + intros Hp. destruct (decide (cache_path self k = p)) as [<-|Hne].
      * rewrite lookup_insert_eq. by eexists.
      * by rewrite lookup_insert_ne.
    + intros Hp. rewrite lookup_insert_ne; [done |]. intros Heq. by apply (Hp k).
  - rewrite set_cache_disabled by done. by rewrite Hf.
Qed.

(** X26: requests never remove a file, and never change a file other
    than the cache files of the configured directory. *)
Theorem serve_keeps_files reqs self p :
  (is_Some (files self !! p) → is_Some (files (serve reqs self) !! p))
  ∧ ((∀ k, p ≠ cache_path self k) → files (serve reqs self) !! p = files self !! p).
Proof.
  revert self. unfold KoreanTTSEngine.serve.
  induction reqs as [|r reqs IH]; intros self; [done |].
  cbn [foldl].
  set (self1 := (synthesize (req_text r) (req_voice r) (req_speed r) self).2).
  destruct (IH self1) as [IH1 IH2].
  destruct (synthesize_files self (req_text r) (req_voice r) (req_speed r) p) as [H1 H2].
  assert (Hc : config self1 = config self)
    by by destruct (synthesize_state self (req_text r) (req_voice r) (req_speed r)).
  split.
  - intros Hp. by apply IH1, H1.
  - intros Hp. rewrite IH2.
    + apply H2, Hp.
    + intros k. rewrite (cache_path_config self) by done. apply Hp.
Qed.

(** X27: a result carries the text of the request and the voice it
    resolved to, and leaves the engine initialized.  A cached result has
    backend "cache", is not empty and leaves both tiers as they were; any
    other result names one of the three backends and, with caching enabled,
    its bytes are then in the cache file of the request. *)
Theorem synthesize_result self text voice speed r self1 :
  synthesize text voice speed self = (Return r, self1) →
  TTSResult.text r = text
  ∧ TTSResult.voice r = pick_voice self voice
  ∧ _initialized self1 = true
  ∧ if TTSResult.cached r then
      TTSResult.backend r = "cache"
      ∧ TTSResult.audio_bytes r ≠ []
      ∧ _cache self1 = _cache self ∧ files self1 = files self
    else
      (TTSResult.backend r = "melo" ∨ TTSResult.backend r = "cosyvoice"
       ∨ TTSResult.backend r = "edge")
      ∧ (TTSConfig.cache_enabled (config self) = true →
         files self1 !! cache_path self
           (_cache_key self text (pick_voice self voice) (pick_speed self speed))
         = Some (TTSResult.audio_bytes r)).
Proof.
  intros Hrun. unfold KoreanTTSEngine.synthesize in Hrun.
  unfold mbind, M_bind, bind in Hrun.
  destruct (ensure_initialized self) as [[[]|x] self0] eqn:Hinit; [| done].
  apply ensure_initialized_returns in Hinit as (Hc & Hm & Hf & Hi).
  assert (Hv : pick_voice self0 voice = pick_voice self voice)
    by (unfold pick_voice; by rewrite Hc).
  assert (Hs : pick_speed self0 speed = pick_speed self speed)
    by (unfold KoreanTTSEngine.pick_speed; by rewrite Hc).
  unfold KoreanTTSEngine.synthesize_initialized in Hrun.
  unfold mbind, mret, M_bind, M_ret, bind, ret, get, modify in Hrun.
  simpl in Hrun. rewrite Hv, Hs in Hrun.
  destruct (truthy_opt_bytes (_get_cached self0 _)) eqn:Htruthy.
  - destruct (_get_cached self0 _) as [[|b audio]|] eqn:Hget; try done.
    simpl in Hrun. destruct (sf_read (b :: audio)) as [[frames sr]|x] eqn:Hread; [| done].
    unfold true_div, lift in Hrun. simpl in Hrun.
    destruct (Z.eqb_spec sr 0); [done |].
    injection Hrun as <- <-. simpl. by rewrite Hm, Hf.
  - pose proof (get_backend_state self0) as Hst.
    pose proof (get_backend_names self0) as Hb.
    destruct (get_backend self0) as [[backend|x] self'] eqn:Hgb; simpl in Hst, Hb;
      subst self'; [| done].
    pose proof (Hb backend eq_refl) as Hname.
    assert (Hsynth : ∃ o : Outcome (list byte * Z),
      (if String.eqb backend "melo"
       then lift (_synthesize_melo text (pick_voice self voice) (pick_speed self speed))
       else if String.eqb backend "cosyvoice"
       then lift (_synthesize_cosyvoice text (pick_voice self voice) (pick_speed self speed))
       else if String.eqb backend "edge"
       then lift (_synthesize_edge text (pick_voice self voice) (pick_speed self speed))
       else raise (RuntimeError ("Unknown backend / 알 수 없는 백엔드: " +:+ backend))) self0
      = (o, self0)).
    { repeat (destruct (String.eqb backend _); [by eexists |]). by eexists. }
    destruct Hsynth as [o Ho]. rewrite Ho in Hrun.
    destruct o as [[audio rate]|x]; [| done].
    unfold lift in Hrun.
    destruct (sf_read audio) as [[frames sr]|x] eqn:Hread; [| done].
    unfold true_div in Hrun. destruct (Z.eqb_spec rate 0); [done |].
    injection Hrun as <- <-. simpl.
    rewrite set_cache_initialized. split; [done |]. split; [done |]. split; [done |].
    split; [done |]. intros Hen.
    rewrite set_cache_files by by rewrite Hc.
    rewrite Hf, (cache_path_config self self0) by done.
    by rewrite lookup_insert_eq.
Qed.
End ServerMore.

(** ** The further properties on concrete inputs *)

Section MoreRegistryCases.
Import Base EngineRegistry Registration Status RegistryExamples MoreExamples.

Lemma register_engine_get_engine_witness :
  _active_engine a_chosen = Some engine_a
  ∧ (get_engine "a" (register_engine another_a a_chosen).2).1 = Return (Some another_a)
  ∧ (get_engine "b" (register_engine another_a a_chosen).2).1 = Return (Some engine_b)
  ∧ (get_active_engine (register_engine another_a a_chosen).2).1 = Return engine_a.
Proof.
  pose proof (register_engine_get_engine a_chosen another_a)
    as (Hsame & Hother & _ & _ & _ & Hactive).
  split; [reflexivity |]. split; [exact Hsame |]. split.
  - rewrite (Hother "b"); [reflexivity | discriminate].
  - rewrite (Hactive engine_a eq_refl). reflexivity.
Defined.

Lemma registered_well_keyed_witness :
  NoDup (@name Z _ (Scripted.World Z) _ <$> [engine_a; engine_b; engine_c])
  ∧ dict_values (_engines (registered [engine_a; engine_b; engine_c] [ready; ready; ready]))
    = [engine_a; engine_b; engine_c].
Proof.
  assert (Hnd : NoDup (@name Z _ (Scripted.World Z) _ <$> [engine_a; engine_b; engine_c])).
  { change (NoDup ["a"; "b"; "c"]). apply (bool_decide_unpack _). vm_compute. exact I. }
  split; [exact Hnd |].
  pose proof (registered_well_keyed [engine_a; engine_b; engine_c] [ready; ready; ready])
    as (_ & _ & Hvalues & _).
  exact (Hvalues Hnd).
Defined.

Lemma set_active_engine_then_get_witness :
  set_active_engine "b" all_ready = (Return true, (set_active_engine "b" all_ready).2)
  ∧ (get_active_engine (set_active_engine "b" all_ready).2).1 = Return engine_b.
Proof.
  assert (Hset : set_active_engine "b" all_ready
                 = (Return true, (set_active_engine "b" all_ready).2)) by reflexivity.
  split; [exact Hset |].
  destruct (set_active_engine_then_get _ _ _ Hset) as (e & Hget & _ & Hactive & _).
  change (Some engine_b = Some e) in Hget. injection Hget as <-.
  rewrite Hactive. reflexivity.
Defined.


Lemma get_active_engine_caches_witness :
  get_active_engine all_ready = (Return engine_b, (get_active_engine all_ready).2)
  ∧ get_active_engine (get_active_engine all_ready).2
    = (Return engine_b, (get_active_engine all_ready).2).
Proof.
  assert (Hrun : get_active_engine all_ready
                 = (Return engine_b, (get_active_engine all_ready).2)) by reflexivity.
  split; [exact Hrun |].
  pose proof (get_active_engine_caches _ _ _ Hrun) as (_ & Hagain & _).
  exact Hagain.
Defined.

Lemma synthesize_unknown_engine_witness :
  dict_get (_engines all_ready) "zz" = None
  ∧ synthesize hello "KR" 10%Z (Some "zz") all_ready
    = (Raise (ValueError "Unknown engine / 알 수 없는 엔진: zz"), all_ready).
Proof.
  split; [reflexivity |].
  apply (synthesize_unknown_engine all_ready hello "KR" 10%Z "zz");
    [discriminate | reflexivity].
Defined.

Lemma synthesize_named_engine_witness :
  dict_get (_engines all_ready) "c" = Some engine_c
  ∧ _active_engine (synthesize hello "KR" 10%Z (Some "c") all_ready).2 = None
  ∧ calls (synthesize hello "KR" 10%Z (Some "c") all_ready).2
    = [(engine_c, Initialize); (engine_c, Synthesize)].
Proof.
  split; [reflexivity |].
  assert (Hname : "c" ≠ "") by discriminate.
  pose proof (synthesize_named_engine all_ready hello "KR" 10%Z "c" engine_c Hname eq_refl)
    as (Hactive & _ & Hcalls).
  split; [exact Hactive |].
  change (_initialized engine_c (world all_ready)) with false in Hcalls.
  change (initialize engine_c (world all_ready))
    with (Return true, Scripted.set_initialized engine_c true (world all_ready)) in Hcalls.
  exact (proj2 Hcalls).
Defined.

Lemma builtin_selection_witness :
  (get_active_engine (registered [Engines.MeloEngine; Engines.EdgeEngine] edge_only)).1
  = Return Engines.EdgeEngine.
Proof.
  exact (builtin_selection (Return 44100%Z) (λ _ _ _, vendor_audio)
           (λ _ _ _, Return (riff, 12%Z))
           [Engines.MeloEngine; Engines.EdgeEngine] edge_only (or_introl eq_refl)).
Defined.

Lemma builtin_initialize_witness :
  initialize Engines.EdgeEngine edge_only
  = (Return true, Engines.set_edge true NOT_INSTALLED edge_only)
  ∧ _initialized Engines.MeloEngine (Engines.set_edge true NOT_INSTALLED edge_only)
    = false.
Proof.
  destruct (builtin_initialize (Return 44100%Z) (λ _ _ _, vendor_audio)
              (λ _ _ _, Return (riff, 12%Z)) Engines.EdgeEngine edge_only)
    as (ok & w' & Hrun & _ & _ & Hother & _).
  assert (Hw : w' = Engines.set_edge true NOT_INSTALLED edge_only).
  { assert (H : (Return ok, w')
                = (Return true, Engines.set_edge true NOT_INSTALLED edge_only))
      by (rewrite <- Hrun; reflexivity).
    by injection H as _ ->. }
  subst w'. split; [reflexivity |].
  apply (Hother Engines.MeloEngine). discriminate.
Defined.


Lemma builtin_cleanup_witness :
  let st := (synthesize hello "KR" 10%Z (Some "melo")
               (registered [Engines.MeloEngine; Engines.EdgeEngine] both_installed)).2 in
  Engines.melo_initialized (world st) = true
  ∧ Engines.MeloEngine ∈ dict_values (_engines st)
  ∧ Engines.melo_initialized (world (EngineRegistry.cleanup st).2) = false.
Proof.
  intros st. split; [reflexivity |].
  assert (Hin : Engines.MeloEngine ∈ dict_values (_engines st)) by (vm_compute; left).
  split; [exact Hin |].
  destruct (builtin_cleanup (Return 44100%Z) (λ _ _ _, vendor_audio)
              (λ _ _ _, Return (riff, 12%Z)) st) as (st' & Hrun & _ & Hmelo & _).
  change (EngineRegistry.cleanup st)
    with (@EngineRegistry.cleanup Z Engines.Engine Engines.World
            (Engines.builtin (Return 44100%Z) (λ _ _ _, vendor_audio)
                             (λ _ _ _, Return (riff, 12%Z))) st).
  rewrite Hrun. exact (Hmelo Hin).
Defined.

Lemma all_ready_well_keyed : well_keyed all_ready.
Proof.
  split.
  - repeat constructor.
  - change (NoDup ["a"; "b"; "c"]). apply (bool_decide_unpack _). vm_compute. exact I.
Qed.

Lemma get_all_voices_by_priority_witness :
  well_keyed all_ready
  ∧ (get_all_voices one_voice all_ready).1
    = Return [("b", one_voice engine_b); ("c", one_voice engine_c); ("a", one_voice engine_a)].
Proof.
  split; [exact all_ready_well_keyed |].
  rewrite (get_all_voices_by_priority one_voice all_ready all_ready_well_keyed).
  reflexivity.
Defined.



Lemma health_reply_witness :
  (API.health shown_name one_version korean_only "2026-01-01T00:00:00" none_ready).1
  = Return (API.mkHealthReply "degraded" 0 None "2026-01-01T00:00:00").
Proof.
  destruct (health_reply shown_name one_version korean_only "2026-01-01T00:00:00"
              none_ready) as (reply & Hrun & _ & Hdegraded & Hcount & Hactive & _).
  rewrite Hrun. simpl. f_equal.
  assert (Hs : API.status reply = "degraded") by (apply Hdegraded; reflexivity).
  destruct reply as [s n a t]. simpl in *. subst.
  assert (Ht : (API.health shown_name one_version korean_only "2026-01-01T00:00:00"
                  none_ready).1
               = Return (API.mkHealthReply "degraded" 0 None "2026-01-01T00:00:00"))
    by reflexivity.
  rewrite Hrun in Ht. simpl in Ht. by injection Ht as ->.
Defined.
End MoreRegistryCases.

Section MoreCacheCases.
Import KoreanTTSEngine CacheExamples MoreExamples.

Lemma initialize_backends_witness :
  _available_backends fresh = []
  ∧ _available_backends (initialize true false true fresh).2 = ["melo"; "edge"]
  ∧ _initialized (initialize true false true fresh).2 = true
  ∧ _available_backends (initialize true false true (initialize true false true fresh).2).2
    = ["melo"; "edge"; "melo"; "edge"].
Proof.
  pose proof (initialize_backends true false true fresh) as (Hfirst & _ & Hok & Hsecond & _).
  split; [reflexivity |]. split; [exact Hfirst |].
  split; [exact (Hok eq_refl) | exact Hsecond].
Defined.

Lemma get_backend_available_witness :
  TTSConfig.backend (config (initialize false true true fresh).2) = AUTO
  ∧ (get_backend (initialize false true true fresh).2).1 = Return "cosyvoice"
  ∧ "melo" ∉ _available_backends (initialize false true true fresh).2.
Proof.
  pose proof (get_backend_available (initialize false true true fresh).2) as [_ Hb].
  change ((get_backend (initialize false true true fresh).2).1)
    with (Return (A := string) "cosyvoice") in Hb.
  destruct Hb as (_ & _ & Hauto).
  change (TTSConfig.backend (config (initialize false true true fresh).2))
    with AUTO in Hauto.
  split; [reflexivity |]. split; [reflexivity |].
  apply (proj1 Hauto). discriminate.
Defined.

Lemma synthesize_without_backends_witness :
  _initialized fresh = false
  ∧ _available_backends fresh = []
  ∧ synthesize tenths_str tenths_truthy 0%Z tenths_div read_any false false false
               backend_none backend_none backend_none 7%Z RegistryExamples.hello None None fresh
    = (Raise (RuntimeError "TTS initialization failed / TTS 초기화 실패"), fresh)
  ∧ serve tenths_str tenths_truthy 0%Z tenths_div read_any false false false
          backend_none backend_none backend_none 7%Z three_requests fresh = fresh.
Proof.
  split; [reflexivity |]. split; [reflexivity |].
  exact (synthesize_without_backends tenths_str tenths_truthy 0%Z tenths_div read_any
           false false false backend_none backend_none backend_none 7%Z
           fresh three_requests RegistryExamples.hello None None eq_refl eq_refl eq_refl eq_refl eq_refl).
Defined.

Lemma synthesize_again_from_cache_witness :
  let served := (synthesize_here RegistryExamples.hello None None fresh).2 in
  TTSConfig.cache_enabled (config fresh) = true
  ∧ (synthesize_here RegistryExamples.hello None None fresh).1
    = Return (TTSResult.mk riff 24000%Z 0%Z RegistryExamples.hello "KR" "edge" false 7%Z)
  ∧ ∃ r2,
      synthesize tenths_str tenths_truthy 0%Z tenths_div read_any false false true
                 backend_none backend_none backend_none 9%Z RegistryExamples.hello None None served
      = (Return r2, served)
      ∧ TTSResult.audio_bytes r2 = riff
      ∧ TTSResult.cached r2 = true.
Proof.
  intros served.
  assert (Hfirst : synthesize_here RegistryExamples.hello None None fresh
                   = (Return (TTSResult.mk riff 24000%Z 0%Z RegistryExamples.hello "KR" "edge" false 7%Z),
                      served))
    by (vm_compute; reflexivity).
  assert (Hmem : ∀ k, _cache fresh !! k ≠ Some [])
    by (intros k; simpl; by rewrite lookup_empty).
  assert (Haudio : riff ≠ []) by discriminate.
  split; [reflexivity |]. split; [vm_compute; reflexivity |].
  pose proof (synthesize_again_from_cache tenths_str tenths_truthy 0%Z tenths_div read_any
                false false true backend_none backend_none backend_riff 7%Z
                fresh RegistryExamples.hello None None _ served read_any_rate eq_refl Hmem Hfirst Haudio
                backend_none backend_none backend_none 9%Z)
    as (r2 & Hrun & Hsame & Hcached & _).
  exists r2. split; [exact Hrun |]. split; [exact Hsame | exact Hcached].
Defined.

Lemma set_cache_at_capacity_witness :
  TTSConfig.cache_enabled (config full) = true
  ∧ _cache full !! "k" = None
  ∧ _cache (_set_cache "k" riff full) !! "k" = None
  ∧ _get_cached (_set_cache "k" riff full) "k" = Some riff.
Proof.
  assert (Hen : TTSConfig.cache_enabled (config full) = true)
    by (vm_compute; reflexivity).
  assert (Hfull : ¬ size (_cache full) < 1000) by (vm_compute; lia).
  assert (Hk : _cache full !! "k" = None) by (vm_compute; reflexivity).
  pose proof (set_cache_at_capacity full "k" riff Hen Hfull Hk) as (Hmem & _ & Hget & _).
  split; [exact Hen |]. split; [exact Hk |]. split; [exact Hmem | exact Hget].
Defined.

Lemma serve_memory_bound_witness :
  (size (_cache fresh) ≤ 1000)%nat
  ∧ (size (_cache (serve tenths_str tenths_truthy 0%Z tenths_div read_any false false true
                         backend_none backend_none backend_riff 7%Z
                         three_requests fresh)) ≤ 1000)%nat.
Proof.
  assert (Hle : (size (_cache fresh) ≤ 1000)%nat) by (vm_compute; lia).
  split; [exact Hle |].
  exact (proj1 (serve_memory_bound tenths_str tenths_truthy 0%Z tenths_div read_any
                  false false true backend_none backend_none backend_riff 7%Z
                  three_requests fresh Hle)).
Defined.

Lemma synthesize_cache_disabled_witness :
  TTSConfig.cache_enabled (config uncached) = false
  ∧ (synthesize_here RegistryExamples.hello None None uncached).1
    = Return (TTSResult.mk riff 24000%Z 0%Z RegistryExamples.hello "KR" "edge" false 7%Z)
  ∧ files (synthesize_here RegistryExamples.hello None None uncached).2 = ∅.
Proof.
  split; [reflexivity |]. split; [vm_compute; reflexivity |].
  pose proof (synthesize_cache_disabled tenths_str tenths_truthy 0%Z tenths_div read_any
                false false true backend_none backend_none backend_riff 7%Z
                uncached RegistryExamples.hello None None eq_refl) as (_ & Hfiles & _).
  exact Hfiles.
Defined.

Lemma synthesize_defaults_witness :
  tenths_truthy 0%Z = false
  ∧ synthesize_here RegistryExamples.hello (Some "KR-2") (Some 0%Z) fresh
    = synthesize_here RegistryExamples.hello (Some "KR-2") None fresh.
Proof.
  split; [reflexivity |].
  pose proof (synthesize_defaults tenths_str tenths_truthy 0%Z tenths_div read_any
                false false true backend_none backend_none backend_riff 7%Z
                fresh RegistryExamples.hello (Some "KR-2") None) as (_ & Hzero & _).
  exact (Hzero 0%Z eq_refl).
Defined.

Lemma serve_keeps_files_witness :
  let disk : gmap string (list byte) := {["/etc/hosts" := wave]} in
  is_Some (disk !! "/etc/hosts")
  ∧ is_Some (files (serve tenths_str tenths_truthy 0%Z tenths_div read_any false false true
                          backend_none backend_none backend_riff 7%Z
                          three_requests (init default_config disk)) !! "/etc/hosts").
Proof.
  intros disk.
  assert (Hp : is_Some (disk !! "/etc/hosts")) by (eexists; reflexivity).
  split; [exact Hp |].
  exact (proj1 (serve_keeps_files tenths_str tenths_truthy 0%Z tenths_div read_any
                  false false true backend_none backend_none backend_riff 7%Z
                  three_requests (init default_config disk) "/etc/hosts") Hp).
Defined.

Lemma synthesize_result_witness :
  let out := synthesize_here RegistryExamples.hello None None fresh in
  out.1 = Return (TTSResult.mk riff 24000%Z 0%Z RegistryExamples.hello "KR" "edge" false 7%Z)
  ∧ files out.2 !! "/app/audio_cache/73aeba55d611dc486cce06b0d50c0183.wav" = Some riff.
Proof.
  intros out.
  assert (Hrun : synthesize_here RegistryExamples.hello None None fresh
                 = (Return (TTSResult.mk riff 24000%Z 0%Z RegistryExamples.hello "KR" "edge" false 7%Z),
                    out.2))
    by (vm_compute; reflexivity).
  split; [vm_compute; reflexivity |].
  pose proof (synthesize_result tenths_str tenths_truthy 0%Z tenths_div read_any
                false false true backend_none backend_none backend_riff 7%Z
                fresh RegistryExamples.hello None None _ out.2 Hrun) as (_ & _ & _ & Hstored).
  cbv beta iota delta [TTSResult.cached TTSResult.audio_bytes] in Hstored.
  destruct Hstored as [_ Hfile]. pose proof (Hfile eq_refl) as Hriff.
  assert (Hpath : cache_path fresh
                    (_cache_key tenths_str fresh RegistryExamples.hello
                                (pick_voice fresh None) (pick_speed tenths_truthy fresh None))
                  = "/app/audio_cache/73aeba55d611dc486cce06b0d50c0183.wav")
    by (vm_compute; reflexivity).
  rewrite Hpath in Hriff. exact Hriff.
Defined.
End MoreCacheCases.
